(** * Amazon logistics dashboard: the two batch scripts, embedded and verified

    [scripts/processed_enhanced_last_mile_data.py] flattens the nested route
    and package JSON documents of the last-mile data set into one record per
    route; [scripts/data_generation.py] synthesises a table of orders from
    random draws.

    Conventions of the embedding.
    - A JSON document is a value of [json]. A Python [dict] is the list of its
      items in insertion order (keys are distinct in a parsed document).
    - A Python number is an [int] of any size or a [float]. A float is its
      exact rational value, an infinity or NaN: the rounding of a binary64
      result (to 53 bits, or to zero when it is too small) is not modelled,
      its overflow is. An [int] too large for a float raises
      [OverflowError] where Python converts it. The order generator, whose
      values stay small, uses plain rationals.
    - A Python exception that escapes a function is [None] in the [option]
      monad; [load_json_file], which catches, lives in an explicit
      result type with the exceptions it handles.
    - A string is the sequence of its code points, each below 256 (Latin-1);
      [len] and [str.isdigit] are those of Python on such strings. *)

From Stdlib Require Import ZArith QArith Qround Qminmax Qabs String Ascii List Lia Lqa.
From Stdlib Require Import DecimalString DecimalN DecimalFacts.
From stdpp Require Import base option list gmap strings.

Local Open Scope string_scope.

(** ** Python numbers *)

(** A [float]: finite, with its exact value, or one of the three special
    values. *)
Inductive pyfloat : Type :=
| Finite (q : Q)
| PosInf
| NegInf
| NaN.

(** An [int] or a [float]. *)
Inductive number : Type :=
| PyInt (z : Z)
| PyFloat (f : pyfloat).

Definition Qltb (x y : Q) : bool := negb (Qle_bool y x).

(** The least magnitude that no finite binary64 value represents: halfway
    between the largest finite value and [2 ^ 1024]. A float result of this
    size is an infinity, an [int] of this size does not convert. *)
Definition FLOAT_OVERFLOW : Q := inject_Z (2 ^ 1024 - 2 ^ 970).

(** The float of the exact result [q] of a float operation. *)
Definition round_float (q : Q) : pyfloat :=
  if Qle_bool FLOAT_OVERFLOW q then PosInf
  else if Qle_bool q (- FLOAT_OVERFLOW) then NegInf
  else Finite q.

(** [float(z)], as the arithmetic converts an [int] operand: an
    [OverflowError] when [z] is too large. *)
Definition float_of_int (z : Z) : option pyfloat :=
  match round_float (inject_Z z) with
  | Finite q => Some (Finite q)
  | _ => None
  end.

(** The sign of a float that is not NaN. *)
Definition float_sign (f : pyfloat) : Z :=
  match f with
  | Finite q => Z.sgn (Qnum q)
  | PosInf => 1
  | NegInf => -1
  | NaN => 0
  end.

Definition float_add (a b : pyfloat) : pyfloat :=
  match a, b with
  | NaN, _ | _, NaN => NaN
  | PosInf, NegInf | NegInf, PosInf => NaN
  | PosInf, _ | _, PosInf => PosInf
  | NegInf, _ | _, NegInf => NegInf
  | Finite x, Finite y => round_float (x + y)
  end.

Definition float_mul (a b : pyfloat) : pyfloat :=
  match a, b with
  | NaN, _ | _, NaN => NaN
  | Finite x, Finite y => round_float (x * y)
  | _, _ =>
      match (float_sign a * float_sign b)%Z with
      | Z0 => NaN
      | Zpos _ => PosInf
      | Zneg _ => NegInf
      end
  end.

(** [a / b] for two floats, the second finite and above zero. *)
Definition float_div_pos (a : pyfloat) (b : Q) : pyfloat :=
  match a with
  | Finite x => round_float (x / b)
  | _ => a
  end.

(** [a < 0] *)
Definition float_negative (a : pyfloat) : bool :=
  match a with
  | Finite q => Qltb q 0
  | NegInf => true
  | PosInf | NaN => false
  end.

(** [a + b]: exact on two [int]s, otherwise the sum of the two floats. *)
Definition py_add (a b : number) : option number :=
  match a, b with
  | PyInt x, PyInt y => Some (PyInt (x + y))
  | PyInt x, PyFloat g => f ← float_of_int x; Some (PyFloat (float_add f g))
  | PyFloat f, PyInt y => g ← float_of_int y; Some (PyFloat (float_add f g))
  | PyFloat f, PyFloat g => Some (PyFloat (float_add f g))
  end.

(** [a * b] *)
Definition py_mul (a b : number) : option number :=
  match a, b with
  | PyInt x, PyInt y => Some (PyInt (x * y))
  | PyInt x, PyFloat g => f ← float_of_int x; Some (PyFloat (float_mul f g))
  | PyFloat f, PyInt y => g ← float_of_int y; Some (PyFloat (float_mul f g))
  | PyFloat f, PyFloat g => Some (PyFloat (float_mul f g))
  end.

(** [a / d] for an [int] constant [d] above zero: the true division of two
    [int]s raises [OverflowError] when the quotient is too large for a
    float. *)
Definition py_truediv_int (a : number) (d : Z) : option pyfloat :=
  match a with
  | PyInt x =>
      match round_float (inject_Z x / inject_Z d) with
      | Finite q => Some (Finite q)
      | _ => None
      end
  | PyFloat f => g ← float_of_int d; Some (float_div_pos f (inject_Z d))
  end.

(** [t + a] for a float [t] *)
Definition float_add_number (t : pyfloat) (a : number) : option pyfloat :=
  match a with
  | PyInt y => g ← float_of_int y; Some (float_add t g)
  | PyFloat g => Some (float_add t g)
  end.

(** ** JSON values and the Python operations the scripts apply to them *)

#[local] Unset Elimination Schemes.
Inductive json : Type :=
| JNull
| JBool (b : bool)
| JNum (n : number)
| JStr (s : string)
| JList (l : list json)
| JDict (d : list (string * json)).
#[local] Set Elimination Schemes.

Abbreviation dict := (list (string * json)).

(** [bool(v)] *)
Definition truthy (v : json) : bool :=
  match v with
  | JNull => false
  | JBool b => b
  | JNum (PyInt z) => negb (z =? 0)%Z
  | JNum (PyFloat (Finite q)) => negb (Qeq_bool q 0)
  | JNum (PyFloat _) => true
  | JStr s => negb (String.eqb s "")
  | JList l => match l with [] => false | _ => true end
  | JDict d => match d with [] => false | _ => true end
  end.

(** [isinstance(v, dict)] *)
Definition is_dict (v : json) : bool :=
  match v with JDict _ => true | _ => false end.

(** The value stored under [k], if any. *)
Fixpoint dict_lookup (k : string) (d : dict) : option json :=
  match d with
  | [] => None
  | (k', v) :: d' => if String.eqb k k' then Some v else dict_lookup k d'
  end.

(** [v.get(k, dflt)]; an [AttributeError] when [v] is no dict. *)
Definition py_get_default (v : json) (k : string) (dflt : json) : option json :=
  match v with
  | JDict d => Some (default dflt (dict_lookup k d))
  | _ => None
  end.

(** [v.get(k)] *)
Definition py_get (v : json) (k : string) : option json :=
  py_get_default v k JNull.

(** [v[k]]; a [KeyError] or [TypeError] is [None]. *)
Definition py_index (v : json) (k : string) : option json :=
  match v with
  | JDict d => dict_lookup k d
  | _ => None
  end.

(** [k in s] for two strings. *)
Fixpoint is_substring (k s : string) : bool :=
  String.prefix k s
  || match s with
     | EmptyString => false
     | String _ s' => is_substring k s'
     end.

(** [k in v] for a string [k]: a key of a dict, a substring of a string, an
    element of a list; a [TypeError] on the values that are not iterable. *)
Definition py_in (k : string) (v : json) : option bool :=
  match v with
  | JDict d => Some (bool_decide (is_Some (dict_lookup k d)))
  | JStr s => Some (is_substring k s)
  | JList l =>
      Some (existsb (fun x => match x with JStr s => String.eqb s k | _ => false end) l)
  | JNull | JBool _ | JNum _ => None
  end.

(** [list(v.values())] *)
Definition py_values (v : json) : option (list json) :=
  match v with
  | JDict d => Some (map snd d)
  | _ => None
  end.

(** [v.keys()] *)
Definition py_keys (v : json) : option (list string) :=
  match v with
  | JDict d => Some (map fst d)
  | _ => None
  end.

(** [len(v)] *)
Definition py_len (v : json) : option nat :=
  match v with
  | JDict d => Some (length d)
  | JList l => Some (length l)
  | JStr s => Some (String.length s)
  | JNull | JBool _ | JNum _ => None
  end.

(** [x or y], with [y] evaluated only when [x] is falsy. *)
Definition py_or (x : json) (y : option json) : option json :=
  if truthy x then Some x else y.

(** The operand of an addition to, or of a product that is added to, a
    number: numbers and booleans ([True] is 1) go through, every other
    value ends in a [TypeError]. *)
Definition as_number (v : json) : option number :=
  match v with
  | JNum n => Some n
  | JBool b => Some (PyInt (if b then 1 else 0))
  | _ => None
  end.

(** The [int] and [float] literals of the scripts and of the examples. *)
Definition JInt (z : Z) : json := JNum (PyInt z).
Definition JFloat (q : Q) : json := JNum (PyFloat (Finite q)).

(** ** The route aggregator: [process_single_route_data] *)

(** The dict the function returns, one field per key. *)
Record route_metrics : Type := {
  route_id : string;
  city : json;
  route_date : json;
  station_code : json;
  route_score : json;
  origin_latitude : json;
  origin_longitude : json;
  vehicle_capacity_cm3 : json;
  num_deliveries : nat;
  total_calculated_volume_cm3 : pyfloat;
  actual_route_duration_hours : pyfloat;
  actual_route_distance_km : pyfloat
}.

(** The loop over [stops_data_from_route_json.items()], with its two
    accumulators. *)
Fixpoint stops_loop (items : dict)
    (total_travel_time_seconds total_planned_service_time_seconds : number)
  : option (number * number) :=
  match items with
  | [] => Some (total_travel_time_seconds, total_planned_service_time_seconds)
  | (stop_id, stop_detail) :: rest =>
      if is_dict stop_detail then
        t ← py_get_default stop_detail "travel_time_to_next_stop_in_seconds" (JInt 0)
            ≫= as_number;
        total_travel_time_seconds ← py_add total_travel_time_seconds t;
        p ← py_get_default stop_detail "planned_service_time_seconds" (JInt 0)
            ≫= as_number;
        total_planned_service_time_seconds ←
          py_add total_planned_service_time_seconds p;
        stops_loop rest total_travel_time_seconds
                        total_planned_service_time_seconds
      else
        stops_loop rest total_travel_time_seconds total_planned_service_time_seconds
  end.

(** The loop over [packages_list_values], adding each package's volume. *)
Fixpoint packages_loop (pkgs : list json) (total_calculated_volume_cm3 : pyfloat)
  : option pyfloat :=
  match pkgs with
  | [] => Some total_calculated_volume_cm3
  | pkg :: rest =>
      has ← py_in "dimensions" pkg;
      isd ← (if has : bool then is_dict <$> py_get pkg "dimensions" else Some false);
      if isd : bool then
        dims ← py_index pkg "dimensions";
        depth ← py_get_default dims "depth_cm" (JInt 0) ≫= as_number;
        height ← py_get_default dims "height_cm" (JInt 0) ≫= as_number;
        width ← py_get_default dims "width_cm" (JInt 0) ≫= as_number;
        volume ← py_mul depth height ≫= (fun dh => py_mul dh width);
        total_calculated_volume_cm3 ←
          float_add_number total_calculated_volume_cm3 volume;
        packages_loop rest total_calculated_volume_cm3
      else
        packages_loop rest total_calculated_volume_cm3
  end.

(** The values the [if route_details:] block assigns. *)
Record route_part : Type := {
  rp_city : json;
  rp_route_date : json;
  rp_station_code : json;
  rp_route_score : json;
  rp_origin_lat : json;
  rp_origin_lon : json;
  rp_vehicle_capacity : json;
  rp_duration_hours : pyfloat
}.

(** Lines 73-75: the coordinates of the origin, when it is a mapping. *)
Definition origin_coordinates (route_details : json) : option (json * json) :=
  has_origin ← py_in "origin" route_details;
  origin_is_dict ←
    (if has_origin : bool then is_dict <$> py_get route_details "origin"
     else Some false);
  if origin_is_dict : bool then
    origin ← py_index route_details "origin";
    origin_lat ← py_get origin "latitude";
    origin_lon ← py_get origin "longitude";
    Some (origin_lat, origin_lon)
  else Some (JNull, JNull).

(** Lines 77-89: the duration, from the stops. *)
Definition route_duration_hours (route_details : json) : option pyfloat :=
  stops_data_from_route_json ← py_get_default route_details "stops" (JDict []);
  if truthy stops_data_from_route_json && is_dict stops_data_from_route_json then
    items ← (match stops_data_from_route_json with
             | JDict items => Some items
             | _ => None
             end);
    '(total_travel_time_seconds, total_planned_service_time_seconds) ←
      stops_loop items (PyInt 0) (PyInt 0);
    total ← py_add total_travel_time_seconds total_planned_service_time_seconds;
    actual_route_duration_hours ← py_truediv_int total 3600;
    Some (if float_negative actual_route_duration_hours then Finite 0
          else actual_route_duration_hours)
  else Some (Finite 0).

(** Lines 66-89. *)
Definition route_block (route_details : json) : option route_part :=
  if truthy route_details then
    d1 ← py_get route_details "date_YYYY_MM_DD";
    route_date ← py_or d1 (py_get route_details "date");
    city ← py_get_default route_details "city" (JStr "Unknown");
    station_code ← py_get route_details "station_code";
    route_score ← py_get route_details "route_score";
    c1 ← py_get route_details "executor_capacity_cm3";
    vehicle_capacity ← py_or c1 (py_get route_details "vehicleCapacity");
    '(origin_lat, origin_lon) ← origin_coordinates route_details;
    duration ← route_duration_hours route_details;
    Some {| rp_city := city; rp_route_date := route_date;
            rp_station_code := station_code; rp_route_score := route_score;
            rp_origin_lat := origin_lat; rp_origin_lon := origin_lon;
            rp_vehicle_capacity := vehicle_capacity;
            rp_duration_hours := duration |}
  else
    Some {| rp_city := JStr "Unknown"; rp_route_date := JNull;
            rp_station_code := JNull; rp_route_score := JNull;
            rp_origin_lat := JNull; rp_origin_lon := JNull;
            rp_vehicle_capacity := JNull; rp_duration_hours := Finite 0 |}.

(** Lines 92-94: the inner package dict. *)
Definition inner_packages (package_details_for_route : json) : option json :=
  inner_packages_dict ← py_get_default package_details_for_route "AD" (JDict []);
  if negb (truthy inner_packages_dict) then
    has ← py_in "packages" package_details_for_route;
    if has : bool then
      p ← py_index package_details_for_route "packages";
      if is_dict p then Some p else Some inner_packages_dict
    else Some inner_packages_dict
  else Some inner_packages_dict.

(** Lines 91-104. *)
Definition package_block (package_details_for_route : json)
  : option (nat * pyfloat) :=
  if truthy package_details_for_route then
    inner_packages_dict ← inner_packages package_details_for_route;
    packages_list_values ← py_values inner_packages_dict;
    volume ← packages_loop packages_list_values (Finite 0);
    Some (length packages_list_values, volume)
  else Some (0%nat, Finite 0).

Definition process_single_route_data (route_id : string)
    (route_details package_details_for_route actual_sequences_for_route : json)
  : option route_metrics :=
  rp ← route_block route_details;
  '(n, volume) ← package_block package_details_for_route;
  Some {| route_id := route_id;
          city := rp_city rp;
          route_date := rp_route_date rp;
          station_code := rp_station_code rp;
          route_score := rp_route_score rp;
          origin_latitude := rp_origin_lat rp;
          origin_longitude := rp_origin_lon rp;
          vehicle_capacity_cm3 := rp_vehicle_capacity rp;
          num_deliveries := n;
          total_calculated_volume_cm3 := volume;
          actual_route_duration_hours := rp_duration_hours rp;
          actual_route_distance_km := Finite 0 |}.

(** ** The JSON loader: [load_json_file] *)

(** What a [try] block of the scripts can raise and an [except] clause can
    name: a missing file, the decode error of [json.load], or any other
    subclass of [Exception] ([PermissionError], [UnicodeDecodeError], ...). *)
Inductive exn : Type :=
| FileNotFoundError
| JSONDecodeError
| OtherException.

Inductive result (A : Type) : Type :=
| Ok (a : A)
| Raise (e : exn).
Arguments Ok {A} a.
Arguments Raise {A} e.

Definition result_bind {A B : Type} (r : result A) (k : A → result B) : result B :=
  match r with
  | Ok a => k a
  | Raise e => Raise e
  end.

(** [try: body  except ...: handler] *)
Definition try_except {A : Type} (body : result A) (handler : exn → result A)
  : result A :=
  match body with
  | Ok a => Ok a
  | Raise e => handler e
  end.

(** A path of the file system: absent ([os.path.exists] is false), or there
    with the outcome of [open] followed by [json.load] on it. *)
Inductive file : Type :=
| Absent
| Present (loaded : result json).

Definition filesystem : Type := string → file.

Definition path_exists (fs : filesystem) (filepath : string) : bool :=
  match fs filepath with Absent => false | Present _ => true end.

(** [with open(filepath, 'r') as f: json.load(f)]; opening a path that is
    not there is a [FileNotFoundError]. *)
Definition open_json_load (fs : filesystem) (filepath : string) : result json :=
  match fs filepath with
  | Absent => Raise FileNotFoundError
  | Present loaded => loaded
  end.

Definition load_json_file (fs : filesystem) (filepath : string) : result json :=
  if negb (path_exists fs filepath) then Ok (JDict [])
  else
    try_except
      (result_bind (open_json_load fs filepath) (fun content =>
         if negb (truthy content) then Ok (JDict [])
         else Ok content))
      (fun e =>
         match e with
         | JSONDecodeError => Ok (JDict [])
         | FileNotFoundError | OtherException => Ok (JDict [])
         end).

(** ** The route aggregator: the main loop *)

Definition RAW_META_DATA_DIR : string :=
  "data/last_mile_raw/almrrc2021-data-training".
Definition RAW_EVAL_DATA_DIR : string :=
  "data/last_mile_raw/almrrc2021-data-evaluation".

(** [os.path.join] on three components. *)
Definition path_join (a b c : string) : string := a ++ "/" ++ b ++ "/" ++ c.

(** The nine loaded documents. *)
Record sources : Type := {
  route_data_build : json;
  package_data_build : json;
  actual_sequences_build : json;
  route_data_apply : json;
  package_data_apply : json;
  actual_sequences_apply : json;
  route_data_eval : json;
  package_data_eval : json;
  actual_sequences_eval : json
}.

(** [build.get(route_id) or apply.get(route_id) or eval.get(route_id)] *)
Definition resolve (build apply eval : json) (route_id : string) : option json :=
  b ← py_get build route_id;
  py_or b (a ← py_get apply route_id;
           py_or a (py_get eval route_id)).

(** [len(v) if v else 0], as the diagnostic lines evaluate it. *)
Definition debug_len (v : json) : option nat :=
  if truthy v then py_len v else Some 0%nat.

(** [if doc: all_route_ids_to_process.update(doc.keys())] *)
Definition update_route_ids (doc : json) (ids : gset string) : option (gset string) :=
  if truthy doc then
    keys ← py_keys doc;
    Some (ids ∪ list_to_set keys)
  else Some ids.

(** Lines 156-159. *)
Definition collect_route_ids (src : sources) : option (gset string) :=
  ids ← update_route_ids (route_data_build src) ∅;
  ids ← update_route_ids (route_data_apply src) ids;
  update_route_ids (route_data_eval src) ids.

(** Lines 168-190: the loop over the route identifiers. The counter
    [processed_first_few_debug] is never incremented, so the diagnostic
    lines are evaluated for every route; the dict that
    [process_single_route_data] returns has twelve keys, so the test
    [if processed_metrics:] always passes. *)
Fixpoint routes_loop (src : sources) (ids : list string)
    (all_processed_routes : list route_metrics) : option (list route_metrics) :=
  match ids with
  | [] => Some all_processed_routes
  | route_id :: rest =>
      route_details ←
        resolve (route_data_build src) (route_data_apply src) (route_data_eval src) route_id;
      package_details ←
        resolve (package_data_build src) (package_data_apply src) (package_data_eval src)
                route_id;
      actual_sequences ←
        resolve (actual_sequences_build src) (actual_sequences_apply src)
                (actual_sequences_eval src) route_id;
      _ ← debug_len route_details;
      _ ← debug_len package_details;
      _ ← debug_len actual_sequences;
      if negb (truthy route_details && truthy package_details) then
        routes_loop src rest all_processed_routes
      else
        processed_metrics ←
          process_single_route_data route_id route_details package_details
                                    actual_sequences;
        routes_loop src rest (all_processed_routes ++ [processed_metrics])
  end.

(** How a run of the script ends: an uncaught exception, one of the two
    [exit()] calls, or the rows handed to the data frame that is saved. *)
Inductive outcome : Type :=
| Raised
| ExitNoRouteIds
| ExitNoValidRoutes
| Saved (rows : list route_metrics).

(** Lines 132-154: the nine calls of [load_json_file]. *)
Definition load_sources (fs : filesystem) : result sources :=
  let load (root dir name : string) := load_json_file fs (path_join root dir name) in
  result_bind (load RAW_META_DATA_DIR "model_build_inputs" "route_data.json") (fun rb =>
  result_bind (load RAW_META_DATA_DIR "model_build_inputs" "package_data.json") (fun pb =>
  result_bind (load RAW_META_DATA_DIR "model_build_inputs" "actual_sequences.json") (fun sb =>
  result_bind (load RAW_META_DATA_DIR "model_apply_inputs" "new_route_data.json") (fun ra =>
  result_bind (load RAW_META_DATA_DIR "model_apply_inputs" "new_package_data.json") (fun pa =>
  result_bind (load RAW_META_DATA_DIR "model_score_inputs" "new_actual_sequences.json") (fun sa =>
  result_bind (load RAW_EVAL_DATA_DIR "model_apply_inputs" "eval_route_data.json") (fun re =>
  result_bind (load RAW_EVAL_DATA_DIR "model_apply_inputs" "eval_package_data.json") (fun pe =>
  result_bind (load RAW_EVAL_DATA_DIR "model_score_inputs" "eval_actual_sequences.json") (fun se =>
  Ok {| route_data_build := rb; package_data_build := pb; actual_sequences_build := sb;
        route_data_apply := ra; package_data_apply := pa; actual_sequences_apply := sa;
        route_data_eval := re; package_data_eval := pe; actual_sequences_eval := se |}
  ))))))))).

(** The documents whose [len] the start-up diagnostics print. *)
Definition debug_entries (src : sources) : option unit :=
  _ ← py_len (route_data_build src);
  _ ← py_len (package_data_build src);
  _ ← py_len (actual_sequences_build src);
  _ ← py_len (route_data_apply src);
  _ ← py_len (package_data_apply src);
  _ ← py_len (actual_sequences_apply src);
  _ ← py_len (route_data_eval src);
  _ ← py_len (package_data_eval src);
  _ ← py_len (actual_sequences_eval src);
  Some ().

(** From the loaded documents to the end of the loop. *)
Definition aggregate (src : sources) : outcome :=
  match debug_entries src with
  | None => Raised
  | Some _ =>
      match collect_route_ids src with
      | None => Raised
      | Some all_route_ids_to_process =>
          if bool_decide (all_route_ids_to_process = ∅) then ExitNoRouteIds
          else
            match routes_loop src (elements all_route_ids_to_process) [] with
            | None => Raised
            | Some [] => ExitNoValidRoutes
            | Some rows => Saved rows
            end
      end
  end.

Definition main (fs : filesystem) : outcome :=
  match load_sources fs with
  | Raise _ => Raised
  | Ok src => aggregate src
  end.

(** ** The order generator: configuration *)

Definition NUM_ORDERS : Z := 100000.

(** ** Dates

    A [datetime] at midnight is its proleptic Gregorian ordinal, as
    [datetime.toordinal] computes it; [timedelta(days=n)] is [n]. *)

Definition is_leap (year : Z) : bool :=
  (year mod 4 =? 0)%Z && (negb (year mod 100 =? 0)%Z || (year mod 400 =? 0)%Z).

Definition days_before_year (year : Z) : Z :=
  let y := (year - 1)%Z in
  (y * 365 + y / 4 - y / 100 + y / 400)%Z.

Definition DAYS_BEFORE_MONTH : list Z :=
  [0; 31; 59; 90; 120; 151; 181; 212; 243; 273; 304; 334]%Z.

Definition days_before_month (year month : Z) : Z :=
  (nth (Z.to_nat (month - 1)) DAYS_BEFORE_MONTH 0
   + (if (2 <? month)%Z && is_leap year then 1 else 0))%Z.

Definition datetime (year month day : Z) : Z :=
  (days_before_year year + days_before_month year month + day)%Z.

Definition START_DATE : Z := datetime 2024 1 1.
Definition END_DATE : Z := datetime 2024 12 31.
Definition PRIME_MEMBER_RATIO : Q := 0.70.

Definition PRIME_DELIVERY_AVG_DAYS : Q := 1.5.
Definition PRIME_DELIVERY_STD_DEV : Q := 0.5.
Definition STANDARD_DELIVERY_AVG_DAYS : Q := 6.0.
Definition STANDARD_DELIVERY_STD_DEV : Q := 1.5.

Definition PRIME_DELAY_PROBABILITY : Q := 0.05.
Definition STANDARD_DELAY_PROBABILITY : Q := 0.20.
Definition AVERAGE_DELAY_DAYS : Z := 2.

Definition PRIME_CARRIER_DIST : list (string * Q) :=
  [("AMZL", 0.85); ("UPS", 0.07); ("USPS", 0.05); ("FedEx", 0.03)]%Q.
Definition STANDARD_CARRIER_DIST : list (string * Q) :=
  [("AMZL", 0.20); ("UPS", 0.40); ("USPS", 0.30); ("FedEx", 0.10)]%Q.

Definition BASE_AMZL_COST_PER_PACKAGE : Q := 5.00.
Definition BASE_3PC_COST_PER_PACKAGE : Q := 4.00.
Definition PRIME_EXPEDITED_COST_PREMIUM : Q := 1.2.

Definition US_ZIP_CODES_CSV : string := "data/us_zip_codes.csv".

(** ** Rounding and formatting *)

(** [round(x)]: to the nearest integer, a tie to the even one. *)
Definition py_round (x : Q) : Z :=
  let f := Qfloor x in
  let r := (x - inject_Z f)%Q in
  if Qltb r (1 # 2) then f
  else if Qltb (1 # 2) r then (f + 1)%Z
  else if Z.even f then f else (f + 1)%Z.

(** [round(x, 2)] *)
Definition py_round2 (x : Q) : Q := (inject_Z (py_round (x * 100)) / 100)%Q.

(** [str(n)] for [n >= 0]. *)
Definition decimal (n : Z) : string :=
  NilEmpty.string_of_uint (N.to_uint (Z.to_N n)).

Fixpoint zeros (n : nat) : string :=
  match n with
  | O => ""
  | S n' => String "0" (zeros n')
  end.

(** [f"{n:0{width}d}"]: the sign first, then zeros up to [width]. *)
Definition format_0d (width : nat) (n : Z) : string :=
  if (n <? 0)%Z then
    let digits := decimal (- n) in
    String "-" (zeros (width - 1 - String.length digits) ++ digits)
  else
    let digits := decimal n in
    zeros (width - String.length digits) ++ digits.

(** [s.zfill(width)]: zeros on the left, after a leading sign. *)
Definition zfill (width : nat) (s : string) : string :=
  let fill := zeros (width - String.length s) in
  match s with
  | String c rest =>
      if (Ascii.eqb c "+" || Ascii.eqb c "-")%bool then String c (fill ++ rest)
      else fill ++ s
  | EmptyString => fill
  end.

(** [c.isdigit()] for one character below 256: the digits 0 to 9 and the
    superscripts two, three and one (U+00B2, U+00B3, U+00B9), which Unicode
    gives a digit value. *)
Definition is_digit (c : ascii) : bool :=
  let n := nat_of_ascii c in
  ((48 <=? n)%nat && (n <=? 57)%nat)
  || (n =? 178)%nat || (n =? 179)%nat || (n =? 185)%nat.

(** [s.isdigit()]: at least one character, and digits only. *)
Definition isdigit (s : string) : bool :=
  negb (String.eqb s "") && forallb is_digit (list_ascii_of_string s).

(** ** The zip code loader: [load_real_zip_codes] *)

(** The table [pd.read_csv] returns: the columns in file order, each with
    its name and its cells as [astype(str)] renders them. *)
Definition dataframe : Type := list (string * list string).

(** [name in df.columns] *)
Definition has_column (name : string) (df : dataframe) : bool :=
  existsb (fun col => String.eqb name col.1) df.

(** [df[name].astype(str)], for a column that is there. *)
Fixpoint column (name : string) (df : dataframe) : list string :=
  match df with
  | [] => []
  | (name', cells) :: df' =>
      if String.eqb name name' then cells else column name df'
  end.

(** [[z for z in real_zips if len(z) == 5 and z.isdigit()]] *)
Definition valid_zips (real_zips : list string) : list string :=
  List.filter (fun z => (String.length z =? 5)%nat && isdigit z) real_zips.

(** [list(set(xs))]; Python fixes no order, the model takes that of
    [elements]. *)
Definition list_of_set (xs : list string) : list string :=
  elements (list_to_set xs : gset string).

Section ZipLoader.
(** [pd.read_csv] on the file system of the run. *)
Variable read_csv : string → result dataframe.

Definition load_real_zip_codes (filepath : string) : result (list string) :=
  try_except
    (result_bind (read_csv filepath) (fun df_zip =>
       if has_column "zip" df_zip then
         let real_zips := map (zfill 5) (column "zip" df_zip) in
         let real_zips := valid_zips real_zips in
         Ok (list_of_set real_zips)
       else if has_column "ZIP" df_zip then
         let real_zips := map (zfill 5) (column "ZIP" df_zip) in
         let real_zips := valid_zips real_zips in
         Ok (list_of_set real_zips)
       else Ok []))
    (fun e =>
       match e with
       | FileNotFoundError => Ok []
       | JSONDecodeError | OtherException => Ok []
       end).
End ZipLoader.

(** ** The order generator: random draws

    The generators the script draws from ([random], [numpy.random] and
    Faker) are one state [G], threaded through the calls in program order.
    Of the draws, the documented ranges are all that is assumed. *)

Class RandomSource (G : Type) : Type := {
  (** [random.random()] *)
  random : G → Q * G;
  (** [random.randint(a, b)] *)
  randint : Z → Z → G → Z * G;
  (** [random.uniform(a, b)] *)
  uniform : Q → Q → G → Q * G;
  (** [random.choices(population, weights=weights, k=1)[0]] *)
  choices : list string → list Q → G → string * G;
  (** [random.choice(seq)] *)
  choice : list string → G → string * G;
  (** [np.random.normal(loc, scale)] *)
  normal : Q → Q → G → Q * G;
  (** [fake.postcode()] *)
  postcode : G → string * G;
  random_range : ∀ g, (0 <= (random g).1 ∧ (random g).1 < 1)%Q;
  randint_range : ∀ a b g, (a ≤ b → a ≤ (randint a b g).1 ≤ b)%Z;
  uniform_range : ∀ a b g, (a <= b → a <= (uniform a b g).1 ∧ (uniform a b g).1 <= b)%Q
}.

(** One row of [orders_data]. The three dates are the [datetime] values
    whose ['%Y-%m-%d'] rendering the row stores. *)
Record order : Type := {
  order_id : string;
  customer_id : string;
  order_date : Z;
  is_prime_member : bool;
  expected_delivery_date : Z;
  actual_delivery_date : Z;
  delivery_status : string;
  carrier : string;
  delivery_cost_to_amazon : Q;
  product_id : string;
  order_quantity : Z;
  destination_zip_code : string
}.

(** Lines 128-133. *)
Definition status_of (actual_delivery_date expected_delivery_date : Z) : string :=
  if (actual_delivery_date <? expected_delivery_date)%Z then "Early"
  else if (actual_delivery_date =? expected_delivery_date)%Z then "On-Time"
  else "Late".

(** Lines 139-142: the cost before the jitter and the rounding. *)
Definition nominal_cost (carrier : string) (is_prime_member : bool) : Q :=
  let base_cost :=
    if String.eqb carrier "AMZL" then BASE_AMZL_COST_PER_PACKAGE
    else BASE_3PC_COST_PER_PACKAGE in
  if is_prime_member then (base_cost * PRIME_EXPEDITED_COST_PREMIUM)%Q
  else base_cost.

Section Generator.
Context {G : Type} `{RandomSource G}.

Definition get_random_date (start end_ : Z) (g : G) : Z * G :=
  let '(n, g) := randint 0 (end_ - start) g in
  ((start + n)%Z, g).

Definition get_carrier (is_prime : bool) (g : G) : string * G :=
  if is_prime then
    choices (map fst PRIME_CARRIER_DIST) (map snd PRIME_CARRIER_DIST) g
  else
    choices (map fst STANDARD_CARRIER_DIST) (map snd STANDARD_CARRIER_DIST) g.

Definition get_delivery_time (is_prime : bool) (g : G) : Z * G :=
  if is_prime then
    let '(x, g) := normal PRIME_DELIVERY_AVG_DAYS PRIME_DELIVERY_STD_DEV g in
    (Z.max 1 (py_round x), g)
  else
    let '(x, g) := normal STANDARD_DELIVERY_AVG_DAYS STANDARD_DELIVERY_STD_DEV g in
    (Z.max 1 (py_round x), g).

(** Lines 123-124: [(p and random() < P) or (not p and random() < S)],
    each draw made only when its conjunct is reached. *)
Definition delay_triggered (is_prime_member : bool) (g : G) : bool * G :=
  let '(prime_delayed, g) :=
    if is_prime_member then
      let '(r, g) := random g in (Qltb r PRIME_DELAY_PROBABILITY, g)
    else (false, g) in
  if prime_delayed then (true, g)
  else if negb is_prime_member then
    let '(r, g) := random g in (Qltb r STANDARD_DELAY_PROBABILITY, g)
  else (false, g).

(** Lines 118-125: the delivery time, the expected and the actual date. *)
Definition delivery_dates (order_date : Z) (is_prime_member : bool) (g : G)
  : (Z * Z * Z) * G :=
  let '(delivery_days, g) := get_delivery_time is_prime_member g in
  let expected_delivery_date := (order_date + delivery_days)%Z in
  let actual_delivery_date := expected_delivery_date in
  let '(delayed, g) := delay_triggered is_prime_member g in
  if delayed then
    let '(n, g) := randint 1 AVERAGE_DELAY_DAYS g in
    ((delivery_days, expected_delivery_date, (actual_delivery_date + n)%Z), g)
  else
    ((delivery_days, expected_delivery_date, actual_delivery_date), g).

(** Lines 139-143, with the jitter that was drawn. *)
Definition delivery_cost (carrier : string) (is_prime_member : bool) (g : G)
  : (Q * Q) * G :=
  let '(u, g) := uniform 0.9 1.1 g in
  ((u, py_round2 (nominal_cost carrier is_prime_member * u)), g).

Section Row.
Variable REAL_ZIP_CODES : list string.
Variable use_faker_postcode : bool.

(** Lines 146-153. *)
Definition destination (g : G) : string * G :=
  if negb use_faker_postcode then
    match REAL_ZIP_CODES with
    | _ :: _ => choice REAL_ZIP_CODES g
    | [] => postcode g
    end
  else postcode g.

(** The body of the loop, lines 112-169, for the index [i]. *)
Definition generate_order (i : Z) (g : G) : order * G :=
  let order_id := "ORD-" ++ format_0d 7 i in
  let '(c, g) := randint 10000 99999 g in
  let customer_id := "CUST-" ++ format_0d 5 c in
  let '(order_date, g) := get_random_date START_DATE END_DATE g in
  let '(r, g) := random g in
  let is_prime_member := Qltb r PRIME_MEMBER_RATIO in
  let '((_, expected_delivery_date, actual_delivery_date), g) :=
    delivery_dates order_date is_prime_member g in
  let delivery_status := status_of actual_delivery_date expected_delivery_date in
  let '(carrier, g) := get_carrier is_prime_member g in
  let '((_, delivery_cost_to_amazon), g) :=
    delivery_cost carrier is_prime_member g in
  let '(destination_zip_code, g) := destination g in
  let '(p, g) := randint 100 999 g in
  let '(q, g) := randint 1 5 g in
  ({| order_id := order_id;
      customer_id := customer_id;
      order_date := order_date;
      is_prime_member := is_prime_member;
      expected_delivery_date := expected_delivery_date;
      actual_delivery_date := actual_delivery_date;
      delivery_status := delivery_status;
      carrier := carrier;
      delivery_cost_to_amazon := delivery_cost_to_amazon;
      product_id := "PROD-" ++ format_0d 3 p;
      order_quantity := q;
      destination_zip_code := destination_zip_code |}, g).

(** [for i in range(...)], appending to [orders_data]. *)
Fixpoint orders_loop (indices : list Z) (g : G) : list order * G :=
  match indices with
  | [] => ([], g)
  | i :: rest =>
      let '(row, g) := generate_order i g in
      let '(rows, g) := orders_loop rest g in
      (row :: rows, g)
  end.
End Row.

(** [range(n)] *)
Definition range (n : Z) : list Z := map Z.of_nat (seq 0 (Z.to_nat n)).

(** Lines 101-169: the zip codes are loaded, then the rows are drawn. *)
Definition generate_orders (read_csv : string → result dataframe) (g : G)
  : result (list order) :=
  result_bind (load_real_zip_codes read_csv US_ZIP_CODES_CSV) (fun REAL_ZIP_CODES =>
    let use_faker_postcode := match REAL_ZIP_CODES with [] => true | _ => false end in
    Ok (orders_loop REAL_ZIP_CODES use_faker_postcode (range NUM_ORDERS) g).1).
End Generator.

(** ** A replayable random source

    A tape of recorded integers, each draw reading the next one (0 once the
    tape is used up) into its range. It runs the generator on chosen draws. *)

Module Tape.
Definition tape : Type := list Z.

Definition next (t : tape) : Z * tape :=
  match t with
  | [] => (0%Z, [])
  | x :: t' => (x, t')
  end.

(** The thousandths of the next integer. *)
Definition tape_random (t : tape) : Q * tape :=
  let '(x, t) := next t in ((x mod 1000) # 1000, t).

Definition tape_randint (a b : Z) (t : tape) : Z * tape :=
  let '(x, t) := next t in ((a + x mod (b - a + 1))%Z, t).

Definition tape_uniform (a b : Q) (t : tape) : Q * tape :=
  let '(x, t) := next t in ((a + (b - a) * ((x mod 1001) # 1000))%Q, t).

Definition tape_choices (population : list string) (weights : list Q) (t : tape)
  : string * tape :=
  let '(x, t) := next t in
  (nth (Z.to_nat (x mod Z.of_nat (length population))) population "", t).

Definition tape_choice (population : list string) (t : tape) : string * tape :=
  tape_choices population [] t.

(** The next integer is the standard score, in quarters. *)
Definition tape_normal (loc scale : Q) (t : tape) : Q * tape :=
  let '(x, t) := next t in ((loc + scale * (x # 4))%Q, t).

Definition tape_postcode (t : tape) : string * tape :=
  let '(x, t) := next t in (format_0d 5 (x mod 100000), t).

Lemma random_in_range (t : tape) :
  (0 <= (tape_random t).1 ∧ (tape_random t).1 < 1)%Q.
Proof.
  unfold tape_random. destruct (next t) as [x t']. simpl.
  pose proof (Z.mod_pos_bound x 1000 ltac:(lia)).
  unfold Qle, Qlt. simpl. lia.
Qed.

Lemma randint_in_range (a b : Z) (t : tape) :
  (a ≤ b → a ≤ (tape_randint a b t).1 ≤ b)%Z.
Proof.
  intros Hab. unfold tape_randint. destruct (next t) as [x t']. simpl.
  pose proof (Z.mod_pos_bound x (b - a + 1) ltac:(lia)). lia.
Qed.

Lemma uniform_in_range (a b : Q) (t : tape) :
  (a <= b → a <= (tape_uniform a b t).1 ∧ (tape_uniform a b t).1 <= b)%Q.
Proof.
  intros Hab. unfold tape_uniform. destruct (next t) as [x t']. simpl.
  pose proof (Z.mod_pos_bound x 1001 ltac:(lia)) as Hx.
  set (f := ((x mod 1001) # 1000)%Q).
  assert (Hf : (0 <= f ∧ f <= 1)%Q).
  { unfold f, Qle. simpl. lia. }
  destruct Hf as [Hf0 Hf1]. split; nra.
Qed.

#[global] Instance source : RandomSource tape := {|
  random := tape_random;
  randint := tape_randint;
  uniform := tape_uniform;
  choices := tape_choices;
  choice := tape_choice;
  normal := tape_normal;
  postcode := tape_postcode;
  random_range := random_in_range;
  randint_range := randint_in_range;
  uniform_range := uniform_in_range
|}.
End Tape.


(** * Verification *)

(** ** Comparisons and arithmetic *)

Lemma Qltb_true (x y : Q) : Qltb x y = true ↔ (x < y)%Q.
Proof.
  unfold Qltb. rewrite negb_true_iff. split.
  - intros Hb. apply Qnot_le_lt. intros Hle.
    apply Qle_bool_iff in Hle. congruence.
  - intros Hlt. destruct (Qle_bool y x) eqn:E; [|done].
    apply Qle_bool_iff in E. exfalso. exact (Qlt_not_le _ _ Hlt E).
Qed.

Lemma Qltb_false (x y : Q) : Qltb x y = false ↔ (y <= x)%Q.
Proof.
  unfold Qltb. rewrite negb_false_iff. apply Qle_bool_iff.
Qed.

(** Flooring at zero, as line 89 does it. *)
Lemma floor_at_zero (d : Q) : ((if Qltb d 0 then 0 else d) == Qmax 0 d)%Q.
Proof.
  destruct (Qltb d 0) eqn:E.
  - apply Qltb_true in E. symmetry. apply Q.max_l. lra.
  - apply Qltb_false in E. symmetry. apply Q.max_r. exact E.
Qed.





















(** ** Stops and duration *)





(** A field that is there holds a number. *)
Definition numeric_or_absent (key : string) (record : json) : bool :=
  match record with
  | JDict d =>
      match dict_lookup key d with
      | Some v => bool_decide (is_Some (as_number v))
      | None => true
      end
  | _ => true
  end.


Definition stops_numeric (stops : dict) : bool :=
  forallb (fun kv =>
             numeric_or_absent "travel_time_to_next_stop_in_seconds" kv.2
             && numeric_or_absent "planned_service_time_seconds" kv.2) stops.











(** Whatever the stops hold, a duration that is returned is not below
    zero. *)
Lemma route_duration_not_negative (rd : json) (d : pyfloat) :
  route_duration_hours rd = Some d → float_negative d = false.
Proof.
  unfold route_duration_hours.
  destruct (py_get_default rd "stops" (JDict [])) as [stops|]; simpl; [|done].
  destruct (truthy stops && is_dict stops); [|by intros [= <-]].
  destruct stops as [| | | | |items]; simpl; try done.
  destruct (stops_loop items (PyInt 0) (PyInt 0)) as [[t p]|]; simpl; [|done].
  destruct (py_add t p) as [total|]; simpl; [|done].
  destruct (py_truediv_int total 3600) as [q|]; simpl; [|done].
  destruct (float_negative q) eqn:E; by intros [= <-].
Qed.

(** A time that is there and is no number stops the loop with a
    [TypeError]. *)
Lemma stops_loop_type_error (stops : dict) (t p : number) :
  stops_numeric stops = false → stops_loop stops t p = None.
Proof.
  revert t p. induction stops as [|[k v] stops IH]; intros t p; [done|].
  cbn [stops_numeric forallb snd stops_loop].
  destruct v as [| | | | |d]; try (simpl; apply IH).
  cbn [is_dict]. unfold numeric_or_absent, py_get_default.
  destruct (dict_lookup "travel_time_to_next_stop_in_seconds" d) as [x|];
    cbn [default from_option mbind option_bind id].
  - destruct (as_number x) as [nx|]; simpl; [|done].
    destruct (py_add t nx) as [t1|]; simpl; [|done].
    destruct (dict_lookup "planned_service_time_seconds" d) as [y|]; simpl.
    + destruct (as_number y) as [ny|]; simpl; [|done].
      destruct (py_add p ny) as [p1|]; simpl; [|done]. apply IH.
    + destruct (py_add p (PyInt 0)) as [p1|]; simpl; [|done]. apply IH.
  - simpl. destruct (py_add t (PyInt 0)) as [t1|]; simpl; [|done].
    destruct (dict_lookup "planned_service_time_seconds" d) as [y|]; simpl.
    + destruct (as_number y) as [ny|]; simpl; [|done].
      destruct (py_add p ny) as [p1|]; simpl; [|done]. apply IH.
    + destruct (py_add p (PyInt 0)) as [p1|]; simpl; [|done]. apply IH.
Qed.



(** What [route_block] assigns from a non-empty mapping. *)
Lemma route_block_fields (rd : dict) (rp : route_part) :
  rd ≠ [] →
  route_block (JDict rd) = Some rp →
  route_duration_hours (JDict rd) = Some (rp_duration_hours rp)
  ∧ origin_coordinates (JDict rd) = Some (rp_origin_lat rp, rp_origin_lon rp)
  ∧ rp_city rp = default (JStr "Unknown") (dict_lookup "city" rd)
  ∧ rp_station_code rp = default JNull (dict_lookup "station_code" rd)
  ∧ rp_route_score rp = default JNull (dict_lookup "route_score" rd).
Proof.
  intros Hne. unfold route_block.
  assert (truthy (JDict rd) = true) as -> by (destruct rd; done).
  unfold py_get, py_get_default, py_or. simpl.
  destruct (truthy (default JNull (dict_lookup "date_YYYY_MM_DD" rd)));
    destruct (truthy (default JNull (dict_lookup "executor_capacity_cm3" rd)));
    simpl;
    destruct (origin_coordinates (JDict rd)) as [[lat lon]|]; simpl; try done;
    destruct (route_duration_hours (JDict rd)) as [d|]; simpl; try done;
    intros [= <-]; simpl; done.
Qed.



(** ** Packages and volume *)





















(** ** The record of one route *)

Lemma process_single_route_data_parts (id : string) (rd pd sq : json)
    (r : route_metrics) :
  process_single_route_data id rd pd sq = Some r →
  ∃ rp n volume,
    route_block rd = Some rp
    ∧ package_block pd = Some (n, volume)
    ∧ route_id r = id
    ∧ actual_route_duration_hours r = rp_duration_hours rp
    ∧ num_deliveries r = n
    ∧ total_calculated_volume_cm3 r = volume.
Proof.
  unfold process_single_route_data.
  destruct (route_block rd) as [rp|]; simpl; [|done].
  destruct (package_block pd) as [[n volume]|]; simpl; [|done].
  intros [= <-]. exists rp, n, volume. done.
Qed.



(** The inputs of the examples: one stop of 3600 s of travel and 1800 s of
    service; two packages of 2 x 3 x 4 and 1 x 1 x 1. *)
Definition example_stops : dict :=
  [("s1", JDict [("travel_time_to_next_stop_in_seconds", JInt 3600);
                 ("planned_service_time_seconds", JInt 1800)])].

Definition example_route_details : dict := [("stops", JDict example_stops)].

Definition example_package (depth height width : Z) : json :=
  JDict [("dimensions",
          JDict [("depth_cm", JInt depth); ("height_cm", JInt height);
                 ("width_cm", JInt width)])].

Definition example_packages : dict :=
  [("p1", example_package 2 3 4); ("p2", example_package 1 1 1)].

Definition example_package_details : dict := [("AD", JDict example_packages)].










(** ** The three source locations *)

(** The record that [build.get(id) or apply.get(id) or eval.get(id)] yields:
    the first one found, in that order, where found means present and
    non-empty, as in the script's own ["found: {bool(...)}"] lines; what the
    last location holds when none is found. *)
Inductive first_found (build apply eval : json) (id : string) : json → Prop :=
| found_in_build (v : json) :
    py_get build id = Some v → truthy v = true →
    first_found build apply eval id v
| found_in_apply (b v : json) :
    py_get build id = Some b → truthy b = false →
    py_get apply id = Some v → truthy v = true →
    first_found build apply eval id v
| left_to_eval (b a v : json) :
    py_get build id = Some b → truthy b = false →
    py_get apply id = Some a → truthy a = false →
    py_get eval id = Some v →
    first_found build apply eval id v.

Lemma resolve_first_found (build apply eval : json) (id : string) (v : json) :
  resolve build apply eval id = Some v ↔ first_found build apply eval id v.
Proof.
  unfold resolve, py_or. split.
  - destruct (py_get build id) as [b|] eqn:Hb; simpl; [|done].
    destruct (truthy b) eqn:Htb.
    { intros [= <-]. by eapply found_in_build. }
    destruct (py_get apply id) as [a|] eqn:Ha; simpl; [|done].
    destruct (truthy a) eqn:Hta.
    { intros [= <-]. by eapply found_in_apply. }
    intros He. by eapply left_to_eval.
  - intros [v' Hb Htb | b v' Hb Htb Ha Hta | b a v' Hb Htb Ha Hta He].
    + rewrite Hb. simpl. by rewrite Htb.
    + rewrite Hb. simpl. rewrite Htb, Ha. simpl. by rewrite Hta.
    + rewrite Hb. simpl. rewrite Htb, Ha. simpl. by rewrite Hta.
Qed.

(** The three partial records of a route, as the loop resolves them. *)
Definition route_details_of (src : sources) (id : string) : option json :=
  resolve (route_data_build src) (route_data_apply src) (route_data_eval src) id.
Definition package_details_of (src : sources) (id : string) : option json :=
  resolve (package_data_build src) (package_data_apply src) (package_data_eval src) id.
Definition actual_sequences_of (src : sources) (id : string) : option json :=
  resolve (actual_sequences_build src) (actual_sequences_apply src)
          (actual_sequences_eval src) id.

(** A row is the aggregate of the route [route_id r]: computed from its
    three resolved records, the first two of them non-empty. *)
Definition aggregate_of (src : sources) (r : route_metrics) : Prop :=
  ∃ rd pd sq,
    route_details_of src (route_id r) = Some rd
    ∧ package_details_of src (route_id r) = Some pd
    ∧ actual_sequences_of src (route_id r) = Some sq
    ∧ truthy rd = true ∧ truthy pd = true
    ∧ process_single_route_data (route_id r) rd pd sq = Some r.

Lemma routes_loop_spec (src : sources) (ids : list string)
    (acc rows : list route_metrics) :
  routes_loop src ids acc = Some rows →
  (∀ r, r ∈ rows → r ∈ acc ∨ (route_id r ∈ ids ∧ aggregate_of src r))
  ∧ (∀ r, r ∈ acc → r ∈ rows)
  ∧ (∀ id, id ∈ ids →
       ∃ rd pd sq,
         route_details_of src id = Some rd
         ∧ package_details_of src id = Some pd
         ∧ actual_sequences_of src id = Some sq
         ∧ (truthy rd = true → truthy pd = true →
            ∃ r, process_single_route_data id rd pd sq = Some r ∧ r ∈ rows)).
Proof.
  revert acc. induction ids as [|id ids IH]; intros acc Hloop.
  - simpl in Hloop. injection Hloop as <-.
    split; [by left|]. split; [done|]. intros id Hid. by apply elem_of_nil in Hid.
  - cbn [routes_loop] in Hloop.
    fold (route_details_of src id) in Hloop.
    fold (package_details_of src id) in Hloop.
    fold (actual_sequences_of src id) in Hloop.
    destruct (route_details_of src id) as [rd|] eqn:Hrd; simpl in Hloop; [|done].
    destruct (package_details_of src id) as [pd|] eqn:Hpd; simpl in Hloop; [|done].
    destruct (actual_sequences_of src id) as [sq|] eqn:Hsq; simpl in Hloop; [|done].
    destruct (debug_len rd); simpl in Hloop; [|done].
    destruct (debug_len pd); simpl in Hloop; [|done].
    destruct (debug_len sq); simpl in Hloop; [|done].
    destruct (truthy rd && truthy pd) eqn:Hboth; simpl in Hloop.
    + apply andb_true_iff in Hboth as [Htrd Htpd].
      destruct (process_single_route_data id rd pd sq) as [r0|] eqn:Hr0;
        simpl in Hloop; [|done].
      assert (route_id r0 = id) as Hid0.
      { apply process_single_route_data_parts in Hr0
          as (? & ? & ? & _ & _ & Hid0 & _). done. }
      destruct (IH _ Hloop) as (Hsound & Hacc & Hids).
      split; [|split].
      * intros r Hr. destruct (Hsound r Hr) as [Hin | [Hin Hagg]].
        -- apply elem_of_app in Hin as [Hin | Hin]; [by left|].
           apply list_elem_of_singleton in Hin as ->. right.
           split; [rewrite Hid0; by left|].
           exists rd, pd, sq. rewrite Hid0. done.
        -- right. split; [by right|done].
      * intros r Hr. apply Hacc. apply elem_of_app. by left.
      * intros id' Hid'. apply elem_of_cons in Hid' as [-> | Hid'].
        -- exists rd, pd, sq. split; [done|]. split; [done|]. split; [done|].
           intros _ _. exists r0. split; [done|].
           apply Hacc. apply elem_of_app. right. by apply list_elem_of_singleton.
        -- by apply Hids.
    + destruct (IH _ Hloop) as (Hsound & Hacc & Hids).
      split; [|split].
      * intros r Hr. destruct (Hsound r Hr) as [Hin | [Hin Hagg]]; [by left|].
        right. split; [by right|done].
      * done.
      * intros id' Hid'. apply elem_of_cons in Hid' as [-> | Hid'].
        -- exists rd, pd, sq. split; [done|]. split; [done|]. split; [done|].
           intros Htrd Htpd. rewrite Htrd, Htpd in Hboth. done.
        -- by apply Hids.
Qed.

(** The documents of the examples: route R1 has route details in build and
    package details in apply (build holds an empty record for it); route R2
    has route details only. No sequences are loaded. *)
Definition example_sources : sources := {|
  route_data_build :=
    JDict [("R1", JDict example_route_details);
           ("R2", JDict [("city", JStr "Austin")])];
  package_data_build := JDict [("R1", JDict [])];
  actual_sequences_build := JDict [];
  route_data_apply := JDict [];
  package_data_apply := JDict [("R1", JDict example_package_details)];
  actual_sequences_apply := JDict [];
  route_data_eval := JDict [];
  package_data_eval := JDict [];
  actual_sequences_eval := JDict []
|}.

(** C1. A route the loop considers is emitted if and only if its resolved
    route details and its resolved package details are both present and
    non-empty; the sequence details play no part, and a route without
    package details is left out. *)
Theorem route_emitted_iff_route_and_package_details
    (src : sources) (ids : list string) (rows : list route_metrics) :
  routes_loop src ids [] = Some rows →
  ∀ id, id ∈ ids →
    ∃ rd pd,
      route_details_of src id = Some rd
      ∧ package_details_of src id = Some pd
      ∧ ((∃ r, r ∈ rows ∧ route_id r = id)
         ↔ truthy rd = true ∧ truthy pd = true)
      ∧ (truthy pd = false → ∀ r, r ∈ rows → route_id r ≠ id).
Proof.
  intros Hloop id Hid.
  destruct (routes_loop_spec _ _ _ _ Hloop) as (Hsound & _ & Hids).
  destruct (Hids id Hid) as (rd & pd & sq & Hrd & Hpd & Hsq & Hemit).
  exists rd, pd. split; [done|]. split; [done|].
  assert (∀ r, r ∈ rows → route_id r = id → truthy rd = true ∧ truthy pd = true)
    as Honly.
  { intros r Hr Hrid. destruct (Hsound r Hr) as [Hnil | [_ Hagg]].
    { by apply elem_of_nil in Hnil. }
    destruct Hagg as (rd' & pd' & sq' & Hrd' & Hpd' & _ & Htrd & Htpd & _).
    rewrite Hrid in Hrd', Hpd'. by simplify_eq. }
  split; [split|].
  - intros (r & Hr & Hrid). by eapply Honly.
  - intros [Htrd Htpd]. destruct (Hemit Htrd Htpd) as (r & Hproc & Hr).
    exists r. split; [done|].
    apply process_single_route_data_parts in Hproc
      as (? & ? & ? & _ & _ & Hrid & _). done.
  - intros Hfalse r Hr Hrid. destruct (Honly r Hr Hrid) as [_ Htpd]. congruence.
Qed.

(** On the example, R1 is emitted and R2, which has no package details, is
    not. *)
Lemma route_emitted_iff_route_and_package_details_witness :
  ∃ rows, routes_loop example_sources ["R1"; "R2"] [] = Some rows
          ∧ (∃ r, r ∈ rows ∧ route_id r = "R1")
          ∧ (∀ r, r ∈ rows → route_id r ≠ "R2").
Proof.
  eexists. split; [vm_compute; reflexivity|].
  match goal with |- context [_ ∈ ?l] => set (rows := l) end.
  assert (routes_loop example_sources ["R1"; "R2"] [] = Some rows) as Hloop
    by (vm_compute; reflexivity).
  split.
  - destruct (route_emitted_iff_route_and_package_details _ _ _ Hloop "R1")
      as (rd & pd & Hrd & Hpd & Hiff & _); [by left|].
    apply Hiff. vm_compute in Hrd, Hpd. by simplify_eq.
  - destruct (route_emitted_iff_route_and_package_details _ _ _ Hloop "R2")
      as (rd & pd & Hrd & Hpd & _ & Hout); [right; by left|].
    apply Hout. vm_compute in Hpd. by simplify_eq.
Defined.

(** C4. Each of the three partial records from which a row is computed is
    the first one found for the route across build, apply and eval, in
    that order. *)
Theorem aggregate_uses_first_found_records
    (src : sources) (ids : list string) (rows : list route_metrics) :
  routes_loop src ids [] = Some rows →
  ∀ r, r ∈ rows →
    ∃ rd pd sq,
      first_found (route_data_build src) (route_data_apply src)
                  (route_data_eval src) (route_id r) rd
      ∧ first_found (package_data_build src) (package_data_apply src)
                    (package_data_eval src) (route_id r) pd
      ∧ first_found (actual_sequences_build src) (actual_sequences_apply src)
                    (actual_sequences_eval src) (route_id r) sq
      ∧ process_single_route_data (route_id r) rd pd sq = Some r.
Proof.
  intros Hloop r Hr.
  destruct (routes_loop_spec _ _ _ _ Hloop) as (Hsound & _ & _).
  destruct (Hsound r Hr) as [Hnil | [_ Hagg]].
  { by apply elem_of_nil in Hnil. }
  destruct Hagg as (rd & pd & sq & Hrd & Hpd & Hsq & _ & _ & Hproc).
  exists rd, pd, sq. repeat split; [by apply resolve_first_found..|done].
Qed.

(** On the example, the row of R1 is computed from the package details of
    apply: the record that build holds for R1 is empty, so it is not
    found. *)
Lemma aggregate_uses_first_found_records_witness :
  ∃ rows r,
    routes_loop example_sources ["R1"; "R2"] [] = Some rows
    ∧ r ∈ rows
    ∧ ∃ rd pd sq,
        first_found (package_data_build example_sources)
                    (package_data_apply example_sources)
                    (package_data_eval example_sources) (route_id r) pd
        ∧ pd = JDict example_package_details
        ∧ process_single_route_data (route_id r) rd pd sq = Some r.
Proof.
  eexists. eexists. split; [vm_compute; reflexivity|].
  split; [by left|].
  match goal with |- context [route_id ?x] => set (r := x) end.
  destruct (aggregate_uses_first_found_records example_sources ["R1"; "R2"]
              [r] ltac:(vm_compute; reflexivity) r ltac:(by left))
    as (rd & pd & sq & _ & Hpd & _ & Hproc).
  exists rd, pd, sq. split; [exact Hpd|]. split; [|exact Hproc].
  apply resolve_first_found in Hpd. vm_compute in Hpd. by simplify_eq.
Defined.

(** ** The JSON loader *)

(** C8. [load_json_file] returns the parsed content when the file is there
    and parses to non-empty content; it returns the empty mapping when the
    file is absent, when the content is empty, and when loading fails, with
    a decode error or with any other exception; no exception leaves it. *)
Theorem load_json_file_never_raises (fs : filesystem) (filepath : string) :
  (∃ v, load_json_file fs filepath = Ok v)
  ∧ (∀ content, fs filepath = Present (Ok content) → truthy content = true →
       load_json_file fs filepath = Ok content)
  ∧ (∀ content, fs filepath = Present (Ok content) → truthy content = false →
       load_json_file fs filepath = Ok (JDict []))
  ∧ (fs filepath = Absent → load_json_file fs filepath = Ok (JDict []))
  ∧ (∀ e, fs filepath = Present (Raise e) →
       load_json_file fs filepath = Ok (JDict [])).
Proof.
  unfold load_json_file, path_exists, open_json_load.
  split; [|split; [|split; [|split]]].
  - destruct (fs filepath) as [|[content|[]]]; simpl; eauto.
    destruct (truthy content); simpl; eauto.
  - intros content -> Ht. simpl. by rewrite Ht.
  - intros content -> Ht. simpl. by rewrite Ht.
  - by intros ->.
  - intros e ->. by destruct e.
Qed.

(** A file system with one document that parses to a non-empty mapping, one
    that parses to [[]], one that does not parse, and nothing else. *)
Definition example_filesystem : filesystem := fun filepath =>
  if String.eqb filepath "routes.json" then
    Present (Ok (JDict [("R1", JDict example_route_details)]))
  else if String.eqb filepath "empty.json" then Present (Ok (JList []))
  else if String.eqb filepath "broken.json" then Present (Raise JSONDecodeError)
  else Absent.

Lemma load_json_file_never_raises_witness :
  load_json_file example_filesystem "routes.json"
  = Ok (JDict [("R1", JDict example_route_details)])
  ∧ load_json_file example_filesystem "empty.json" = Ok (JDict [])
  ∧ load_json_file example_filesystem "broken.json" = Ok (JDict [])
  ∧ load_json_file example_filesystem "missing.json" = Ok (JDict []).
Proof.
  split; [|split; [|split]].
  - apply (load_json_file_never_raises example_filesystem "routes.json");
      reflexivity.
  - apply (proj1 (proj2 (proj2 (load_json_file_never_raises
                                  example_filesystem "empty.json"))) (JList []));
      reflexivity.
  - apply (proj2 (proj2 (proj2 (proj2 (load_json_file_never_raises
                                         example_filesystem "broken.json"))))
             JSONDecodeError).
    reflexivity.
  - apply (proj1 (proj2 (proj2 (proj2 (load_json_file_never_raises
                                         example_filesystem "missing.json"))))).
    reflexivity.
Defined.

(** ** The zip code loader *)

(** A digit as [str.isdigit] has it, among the characters below 256: 0 to
    9, and the superscripts two, three and one. *)
Definition python_digit (c : ascii) : Prop :=
  (48 ≤ nat_of_ascii c ≤ 57)%nat
  ∨ nat_of_ascii c = 178%nat ∨ nat_of_ascii c = 179%nat
  ∨ nat_of_ascii c = 185%nat.

(** Exactly five characters, each a digit as [str.isdigit] has it. *)
Definition five_digit_characters (z : string) : Prop :=
  String.length z = 5%nat ∧ Forall python_digit (list_ascii_of_string z).

(** Exactly five characters, each a digit from 0 to 9: a ZIP code. *)
Definition five_digits (z : string) : Prop :=
  String.length z = 5%nat
  ∧ Forall (fun c => (48 ≤ nat_of_ascii c ≤ 57)%nat) (list_ascii_of_string z).

(** The column the loader reads: ["zip"], otherwise ["ZIP"]. *)
Definition zip_column (df : dataframe) : option string :=
  if has_column "zip" df then Some "zip"
  else if has_column "ZIP" df then Some "ZIP"
  else None.

Lemma is_digit_spec (c : ascii) : is_digit c = true ↔ python_digit c.
Proof.
  unfold is_digit, python_digit. cbv zeta.
  rewrite !orb_true_iff, andb_true_iff, !Nat.leb_le, !Nat.eqb_eq. tauto.
Qed.

Lemma five_digit_characters_spec (z : string) :
  (String.length z =? 5)%nat && isdigit z = true ↔ five_digit_characters z.
Proof.
  unfold five_digit_characters, isdigit.
  rewrite !andb_true_iff, Nat.eqb_eq, forallb_forall, Forall_forall.
  split.
  - intros (Hlen & _ & Hall). split; [done|].
    intros c Hc. apply is_digit_spec, Hall. by apply list_elem_of_In.
  - intros (Hlen & Hall). split; [done|]. split.
    + destruct z; [done|]. done.
    + intros c Hc. apply is_digit_spec, Hall. by apply list_elem_of_In.
Qed.

Lemma five_digits_characters (z : string) :
  five_digits z → five_digit_characters z.
Proof.
  intros [Hlen Hall]. split; [done|].
  eapply Forall_impl; [exact Hall|]. intros c Hc. by left.
Qed.

Lemma elem_of_valid_zips (z : string) (real_zips : list string) :
  z ∈ valid_zips real_zips ↔ z ∈ real_zips ∧ five_digit_characters z.
Proof.
  unfold valid_zips.
  rewrite !list_elem_of_In, filter_In, five_digit_characters_spec.
  done.
Qed.

Lemma elem_of_list_of_set (z : string) (xs : list string) :
  z ∈ list_of_set xs ↔ z ∈ xs.
Proof.
  unfold list_of_set. by rewrite elem_of_elements, elem_of_list_to_set.
Qed.

Lemma NoDup_list_of_set (xs : list string) : NoDup (list_of_set xs).
Proof. unfold list_of_set. apply NoDup_elements. Qed.

(** What [load_real_zip_codes] returns, case by case: it never raises; from
    a table with a ["zip"] (otherwise ["ZIP"]) column it returns, without
    duplicates, the padded cells that [len] and [str.isdigit] accept; from a
    table with neither column, and after any error of the read, the empty
    list. *)
Lemma load_real_zip_codes_cases
    (read_csv : string → result dataframe) (filepath : string) :
  (∃ zs, load_real_zip_codes read_csv filepath = Ok zs)
  ∧ (∀ df name,
       read_csv filepath = Ok df → zip_column df = Some name →
       ∃ zs, load_real_zip_codes read_csv filepath = Ok zs
             ∧ NoDup zs
             ∧ ∀ z, z ∈ zs ↔
                    ∃ cell, cell ∈ column name df
                            ∧ z = zfill 5 cell ∧ five_digit_characters z)
  ∧ (∀ df, read_csv filepath = Ok df → zip_column df = None →
       load_real_zip_codes read_csv filepath = Ok [])
  ∧ (∀ e, read_csv filepath = Raise e →
       load_real_zip_codes read_csv filepath = Ok []).
Proof.
  unfold load_real_zip_codes, zip_column.
  split; [|split; [|split]].
  - destruct (read_csv filepath) as [df|[]]; simpl; eauto.
    destruct (has_column "zip" df); [eauto|].
    destruct (has_column "ZIP" df); eauto.
  - intros df name -> Hname. simpl.
    assert (∀ n, ∃ zs,
              Ok (list_of_set (valid_zips (map (zfill 5) (column n df)))) = Ok zs
              ∧ NoDup zs
              ∧ ∀ z, z ∈ zs ↔
                     ∃ cell, cell ∈ column n df
                             ∧ z = zfill 5 cell ∧ five_digit_characters z)
      as Hcol.
    { intros n. eexists. split; [reflexivity|].
      split; [apply NoDup_list_of_set|].
      intros z. rewrite elem_of_list_of_set, elem_of_valid_zips, list_elem_of_fmap.
      split.
      - intros [(cell & -> & Hcell) Hfive]. eauto.
      - intros (cell & Hcell & -> & Hfive). eauto. }
    destruct (has_column "zip" df).
    { injection Hname as <-. apply Hcol. }
    destruct (has_column "ZIP" df); [|done].
    injection Hname as <-. apply Hcol.
  - intros df -> Hname. simpl.
    destruct (has_column "zip" df); [done|].
    by destruct (has_column "ZIP" df).
  - intros e ->. by destruct e.
Qed.

(** The table of the example: a ["zip"] column with 1234, 90210 (twice) and
    abc12. *)
Definition example_read_csv : string → result dataframe := fun filepath =>
  if String.eqb filepath US_ZIP_CODES_CSV then
    Ok [("state", ["MA"; "CA"; "CA"; "NY"]);
        ("zip", ["1234"; "90210"; "90210"; "abc12"])]
  else Raise FileNotFoundError.

(** On the example, 1234 comes out as 01234 and abc12 does not come out. *)
Example load_real_zip_codes_example :
  ∃ zs, load_real_zip_codes example_read_csv US_ZIP_CODES_CSV = Ok zs
        ∧ NoDup zs
        ∧ ("01234" ∈ zs) ∧ ("90210" ∈ zs) ∧ ("abc12" ∉ zs) ∧ ("1234" ∉ zs).
Proof.
  destruct (proj1 (proj2 (load_real_zip_codes_cases
                            example_read_csv US_ZIP_CODES_CSV))
              _ "zip" eq_refl eq_refl) as (zs & Hzs & Hnodup & Hmem).
  exists zs. split; [exact Hzs|]. split; [exact Hnodup|].
  split; [|split; [|split]].
  - apply Hmem. exists "1234". split; [by left|]. split; [reflexivity|].
    apply five_digits_characters. split; [reflexivity|].
    vm_compute. repeat constructor.
  - apply Hmem. exists "90210". split; [right; by left|]. split; [reflexivity|].
    apply five_digits_characters. split; [reflexivity|].
    vm_compute. repeat constructor.
  - intros Hin. apply Hmem in Hin as (cell & _ & _ & _ & Hdigits).
    apply Forall_cons in Hdigits as [Ha _].
    unfold python_digit in Ha. vm_compute in Ha. lia.
  - intros Hin. apply Hmem in Hin as (cell & _ & _ & Hlen & _). discriminate.
Qed.

(** The characters 1, 2, 3, 4 and a superscript two (U+00B2). *)
Definition example_superscript_zip : string :=
  String "1" (String "2" (String "3" (String "4" (String "178" EmptyString)))).

(** A table whose ["zip"] column has that cell. *)
Definition example_superscript_read_csv : string → result dataframe :=
  fun filepath =>
    if String.eqb filepath US_ZIP_CODES_CSV then
      Ok [("zip", ["90210"; example_superscript_zip])]
    else Raise FileNotFoundError.

(** C9. The loader is documented to return ["unique, 5-digit string ZIP
    codes"], and C9 says that the values it keeps consist of exactly 5
    numeric digits; but it tests the characters with [str.isdigit], which a
    superscript digit passes: the cell 1234 followed by a superscript two is
    returned as a ZIP code, though it is not five digits from 0 to 9. *)
Theorem load_real_zip_codes_returns_superscript_digits :
  ∃ zs, load_real_zip_codes example_superscript_read_csv US_ZIP_CODES_CSV = Ok zs
        ∧ example_superscript_zip ∈ zs
        ∧ ¬ five_digits example_superscript_zip.
Proof.
  eexists. split; [reflexivity|]. split.
  - rewrite elem_of_list_of_set, elem_of_valid_zips. split.
    + right. by left.
    + split; [reflexivity|]. unfold python_digit.
      vm_compute. repeat constructor; lia.
  - intros [_ Hdigits].
    do 4 apply Forall_cons in Hdigits as [_ Hdigits].
    apply Forall_cons in Hdigits as [Hc _]. vm_compute in Hc. lia.
Qed.

(** ** The generated rows *)

Section GeneratorFacts.
Context {G : Type} `{RandomSource G}.

Lemma get_delivery_time_at_least_1 (is_prime : bool) (g : G) :
  (1 ≤ (get_delivery_time is_prime g).1)%Z.
Proof.
  unfold get_delivery_time.
  destruct is_prime; destruct (normal _ _ g) as [x g']; simpl; lia.
Qed.

(** What lines 118-125 guarantee about the three values they compute. *)
Lemma delivery_dates_spec (order_date : Z) (is_prime : bool) (g : G) :
  let '(delivery_days, expected, actual) :=
    (delivery_dates order_date is_prime g).1 in
  (1 ≤ delivery_days)%Z
  ∧ expected = (order_date + delivery_days)%Z
  ∧ (actual = expected ∨ (1 ≤ actual - expected ≤ AVERAGE_DELAY_DAYS)%Z).
Proof.
  unfold delivery_dates.
  pose proof (get_delivery_time_at_least_1 is_prime g) as Hdays.
  destruct (get_delivery_time is_prime g) as [days g1]. simpl in Hdays.
  destruct (delay_triggered is_prime g1) as [[|] g2].
  - pose proof (randint_range 1 AVERAGE_DELAY_DAYS g2 ltac:(done)) as Hn.
    destruct (randint 1 AVERAGE_DELAY_DAYS g2) as [n g3]. simpl in *.
    split; [done|]. split; [done|]. right. lia.
  - simpl. split; [done|]. split; [done|]. by left.
Qed.

(** The fields of a row, in terms of the draws that made them. *)
Lemma generate_order_fields (zips : list string) (faker : bool) (i : Z) (g : G) :
  let row := (generate_order zips faker i g).1 in
  order_id row = "ORD-" ++ format_0d 7 i
  ∧ delivery_status row
    = status_of (actual_delivery_date row) (expected_delivery_date row)
  ∧ (∃ is_prime g1,
       (1 ≤ expected_delivery_date row - order_date row)%Z
       ∧ (delivery_dates (order_date row) is_prime g1).1
         = (expected_delivery_date row - order_date row,
            expected_delivery_date row, actual_delivery_date row)%Z)
  ∧ (START_DATE ≤ order_date row ≤ END_DATE)%Z
  ∧ (∃ u, (0.9 <= u ∧ u <= 1.1)%Q
          ∧ delivery_cost_to_amazon row
            = py_round2 (nominal_cost (carrier row) (is_prime_member row) * u)).
Proof.
  unfold generate_order.
  destruct (randint 10000 99999 g) as [c g1].
  pose proof (randint_range 0 (END_DATE - START_DATE) g1 ltac:(done)) as Hdate.
  unfold get_random_date.
  destruct (randint 0 (END_DATE - START_DATE) g1) as [n g2]. simpl in Hdate.
  destruct (random g2) as [r g3].
  pose proof (delivery_dates_spec (START_DATE + n) (Qltb r PRIME_MEMBER_RATIO) g3)
    as Hdates.
  destruct (delivery_dates (START_DATE + n) (Qltb r PRIME_MEMBER_RATIO) g3)
    as [[[days expected] actual] g4] eqn:Hdd.
  simpl in Hdates. destruct Hdates as (Hdays & Hexpected & Hactual).
  destruct (get_carrier (Qltb r PRIME_MEMBER_RATIO) g4) as [carrier g5].
  unfold delivery_cost.
  pose proof (uniform_range 0.9 1.1 g5 ltac:(done)) as Hu.
  destruct (uniform 0.9 1.1 g5) as [u g6]. simpl in Hu.
  destruct (destination zips faker g6) as [zip g7].
  destruct (randint 100 999 g7) as [p g8].
  destruct (randint 1 5 g8) as [q g9]. simpl.
  split; [done|]. split; [done|]. split; [|split].
  - exists (Qltb r PRIME_MEMBER_RATIO), g3. split; [lia|].
    rewrite Hdd. simpl. f_equal. f_equal. lia.
  - lia.
  - exists u. done.
Qed.
End GeneratorFacts.

Section Rows.
Context {G : Type} `{RandomSource G}.
Variable REAL_ZIP_CODES : list string.
Variable use_faker_postcode : bool.

(** Every row of the table is the row of some index, drawn at some state of
    the generators. *)
Lemma orders_loop_rows (indices : list Z) (g : G) (row : order) :
  row ∈ (orders_loop REAL_ZIP_CODES use_faker_postcode indices g).1 →
  ∃ i g', i ∈ indices
          ∧ row = (generate_order REAL_ZIP_CODES use_faker_postcode i g').1.
Proof.
  revert g. induction indices as [|i indices IH]; intros g.
  - simpl. intros Hin. by apply elem_of_nil in Hin.
  - simpl.
    destruct (generate_order REAL_ZIP_CODES use_faker_postcode i g)
      as [row0 g1] eqn:Hrow0.
    destruct (orders_loop REAL_ZIP_CODES use_faker_postcode indices g1)
      as [rows g2] eqn:Hrows.
    simpl. intros Hin. apply elem_of_cons in Hin as [-> | Hin].
    + exists i, g. split; [by left|]. by rewrite Hrow0.
    + destruct (IH g1) as (j & g' & Hj & Hrow); [by rewrite Hrows|].
      exists j, g'. split; [by right|done].
Qed.

Lemma orders_loop_order_ids (indices : list Z) (g : G) :
  map order_id (orders_loop REAL_ZIP_CODES use_faker_postcode indices g).1
  = map (fun i => "ORD-" ++ format_0d 7 i) indices.
Proof.
  revert g. induction indices as [|i indices IH]; intros g; [done|].
  simpl.
  pose proof (generate_order_fields REAL_ZIP_CODES use_faker_postcode i g)
    as [Hid _].
  destruct (generate_order REAL_ZIP_CODES use_faker_postcode i g) as [row0 g1].
  specialize (IH g1).
  destruct (orders_loop REAL_ZIP_CODES use_faker_postcode indices g1)
    as [rows g2].
  simpl in *. by rewrite Hid, IH.
Qed.

(** C5. In every generated row the actual delivery date is not before the
    expected one: it is the expected date, or between 1 and
    [AVERAGE_DELAY_DAYS] days later; and the delivery time, from the order
    date to the expected date, is at least one day. *)
Theorem actual_delivery_not_before_expected
    (indices : list Z) (g : G) (row : order) :
  row ∈ (orders_loop REAL_ZIP_CODES use_faker_postcode indices g).1 →
  (expected_delivery_date row ≤ actual_delivery_date row)%Z
  ∧ (actual_delivery_date row = expected_delivery_date row
     ∨ (1 ≤ actual_delivery_date row - expected_delivery_date row
          ≤ AVERAGE_DELAY_DAYS)%Z)
  ∧ (1 ≤ expected_delivery_date row - order_date row)%Z
  ∧ (∀ is_prime g', 1 ≤ (get_delivery_time is_prime g').1)%Z.
Proof.
  intros Hrow. apply orders_loop_rows in Hrow as (i & g' & _ & ->).
  destruct (generate_order_fields REAL_ZIP_CODES use_faker_postcode i g')
    as (_ & _ & (is_prime & g1 & Hdays & Hdates) & _).
  pose proof (delivery_dates_spec
                (order_date (generate_order REAL_ZIP_CODES use_faker_postcode i g').1)
                is_prime g1) as Hspec.
  rewrite Hdates in Hspec. destruct Hspec as (_ & _ & Hactual).
  split; [|split; [done|split; [done|]]].
  - destruct Hactual as [-> | Hlate]; lia.
  - intros p g2. apply get_delivery_time_at_least_1.
Qed.

(** C6. In every generated row the status compares the actual with the
    expected date: earlier is ["Early"], equal is ["On-Time"], later is
    ["Late"]. *)
Theorem delivery_status_compares_dates
    (indices : list Z) (g : G) (row : order) :
  row ∈ (orders_loop REAL_ZIP_CODES use_faker_postcode indices g).1 →
  ((actual_delivery_date row < expected_delivery_date row)%Z →
   delivery_status row = "Early")
  ∧ (actual_delivery_date row = expected_delivery_date row →
     delivery_status row = "On-Time")
  ∧ ((expected_delivery_date row < actual_delivery_date row)%Z →
     delivery_status row = "Late").
Proof.
  intros Hrow. apply orders_loop_rows in Hrow as (i & g' & _ & ->).
  destruct (generate_order_fields REAL_ZIP_CODES use_faker_postcode i g')
    as (_ & -> & _).
  unfold status_of. repeat split; intros Hcmp.
  - apply Z.ltb_lt in Hcmp. by rewrite Hcmp.
  - rewrite Hcmp, Z.ltb_irrefl, Z.eqb_refl. done.
  - destruct (Z.ltb_spec (actual_delivery_date
                (generate_order REAL_ZIP_CODES use_faker_postcode i g').1)
              (expected_delivery_date
                (generate_order REAL_ZIP_CODES use_faker_postcode i g').1)); [lia|].
    destruct (Z.eqb_spec (actual_delivery_date
                (generate_order REAL_ZIP_CODES use_faker_postcode i g').1)
              (expected_delivery_date
                (generate_order REAL_ZIP_CODES use_faker_postcode i g').1)); [lia|].
    done.
Qed.

End Rows.

(** A recorded run of two rows, with no zip codes loaded. Row 0: a prime
    member, two days of delivery, a delay of two days, carrier AMZL, a
    jitter of 1. Row 1: the same, without a delay. *)
Definition example_tape : Tape.tape :=
  [12345; 9; 100; 3; 10; 1; 0; 500; 4; 123; 2;
   20000; 30; 100; 0; 900; 0; 500; 7; 200; 1]%Z.

Definition example_rows : list order :=
  (orders_loop [] true [0; 1]%Z example_tape).1.

Definition example_late_row : order := {|
  order_id := "ORD-0000000";
  customer_id := "CUST-22345";
  order_date := 738895;
  is_prime_member := true;
  expected_delivery_date := 738897;
  actual_delivery_date := 738899;
  delivery_status := "Late";
  carrier := "AMZL";
  delivery_cost_to_amazon := 6.00;
  product_id := "PROD-223";
  order_quantity := 3;
  destination_zip_code := "00004"
|}.

Definition example_on_time_row : order := {|
  order_id := "ORD-0000001";
  customer_id := "CUST-30000";
  order_date := 738916;
  is_prime_member := true;
  expected_delivery_date := 738918;
  actual_delivery_date := 738918;
  delivery_status := "On-Time";
  carrier := "AMZL";
  delivery_cost_to_amazon := 6.00;
  product_id := "PROD-300";
  order_quantity := 2;
  destination_zip_code := "00007"
|}.

Lemma example_rows_eq : example_rows = [example_late_row; example_on_time_row].
Proof. vm_compute. reflexivity. Qed.

Lemma example_late_row_generated : example_late_row ∈ example_rows.
Proof. rewrite example_rows_eq. by left. Defined.

Lemma example_on_time_row_generated : example_on_time_row ∈ example_rows.
Proof. rewrite example_rows_eq. right. by left. Defined.

Lemma actual_delivery_not_before_expected_witness :
  (expected_delivery_date example_late_row
   ≤ actual_delivery_date example_late_row)%Z
  ∧ (1 ≤ expected_delivery_date example_late_row - order_date example_late_row)%Z.
Proof.
  destruct (actual_delivery_not_before_expected [] true [0; 1]%Z example_tape
              example_late_row example_late_row_generated)
    as (Hle & _ & Hdays & _).
  split; [exact Hle | exact Hdays].
Defined.

(** The examples of C6: delivered on 2024-01-10 as expected is on time,
    delivered on 2024-01-12 is late. *)
Example status_of_examples :
  status_of (datetime 2024 1 10) (datetime 2024 1 10) = "On-Time"
  ∧ status_of (datetime 2024 1 12) (datetime 2024 1 10) = "Late".
Proof. split; reflexivity. Qed.

Lemma delivery_status_compares_dates_witness :
  delivery_status example_late_row = "Late"
  ∧ delivery_status example_on_time_row = "On-Time".
Proof.
  split.
  - apply (delivery_status_compares_dates [] true [0; 1]%Z example_tape
             example_late_row example_late_row_generated).
    reflexivity.
  - apply (delivery_status_compares_dates [] true [0; 1]%Z example_tape
             example_on_time_row example_on_time_row_generated).
    reflexivity.
Defined.


(** ** Order identifiers *)

(** The number a string of decimal digits denotes, leading zeros
    allowed. *)
Definition decimal_value (s : string) : option N :=
  N.of_uint <$> NilEmpty.uint_of_string s.

Lemma decimal_value_decimal (n : Z) :
  decimal_value (decimal n) = Some (Z.to_N n).
Proof.
  unfold decimal_value, decimal. rewrite NilEmpty.usu. simpl.
  by rewrite DecimalN.Unsigned.of_to.
Qed.

Lemma decimal_value_zeros (k : nat) (s : string) :
  decimal_value (zeros k ++ s) = decimal_value s.
Proof.
  induction k as [|k IH]; [done|].
  unfold decimal_value in *. simpl.
  destruct (NilEmpty.uint_of_string (zeros k ++ s)) as [d|];
    destruct (NilEmpty.uint_of_string s) as [d'|]; simpl in IH; done.
Qed.

(** Reading back a zero-padded number gives the number. *)
Lemma decimal_value_format_0d (width : nat) (n : Z) :
  (0 ≤ n)%Z → decimal_value (format_0d width n) = Some (Z.to_N n).
Proof.
  intros Hn. unfold format_0d.
  destruct (Z.ltb_spec n 0); [lia|].
  by rewrite decimal_value_zeros, decimal_value_decimal.
Qed.

Lemma format_0d_inj (width : nat) (i j : Z) :
  (0 ≤ i)%Z → (0 ≤ j)%Z → format_0d width i = format_0d width j → i = j.
Proof.
  intros Hi Hj Heq.
  pose proof (decimal_value_format_0d width i Hi) as Hvi.
  pose proof (decimal_value_format_0d width j Hj) as Hvj.
  rewrite Heq, Hvj in Hvi. injection Hvi as Hvi. lia.
Qed.

Lemma NoDup_range (n : Z) : NoDup (range n).
Proof.
  unfold range. apply NoDup_fmap_2; [|apply NoDup_seq].
  intros x y. apply Nat2Z.inj.
Qed.

Lemma elem_of_range (n i : Z) : i ∈ range n ↔ (0 ≤ i < n)%Z.
Proof.
  unfold range. rewrite list_elem_of_fmap. split.
  - intros (k & -> & Hk). apply elem_of_seq in Hk. lia.
  - intros Hi. exists (Z.to_nat i). split; [lia|]. apply elem_of_seq. lia.
Qed.

(** C10. The order identifiers of one run are pairwise distinct: row [i]
    gets ["ORD-"] followed by [i] padded with zeros to 7 digits, a format
    that is injective on the indices below 10,000,000, and [NUM_ORDERS]
    is below that bound. *)
Theorem order_ids_are_distinct :
  (∀ i j : Z, (0 ≤ i < 10000000)%Z → (0 ≤ j < 10000000)%Z →
     "ORD-" ++ format_0d 7 i = "ORD-" ++ format_0d 7 j → i = j)
  ∧ (NUM_ORDERS < 10000000)%Z
  ∧ (∀ (G : Type) (R : RandomSource G) zips faker (g : G),
       let orders_data := (orders_loop zips faker (range NUM_ORDERS) g).1 in
       map order_id orders_data
       = map (fun i => "ORD-" ++ format_0d 7 i) (range NUM_ORDERS)
       ∧ NoDup (map order_id orders_data)).
Proof.
  split; [|split; [reflexivity|]].
  - intros i j [Hi _] [Hj _] Heq. injection Heq as Heq.
    by apply (format_0d_inj 7).
  - intros G R zips faker g orders_data. subst orders_data.
    rewrite orders_loop_order_ids. split; [reflexivity|].
    apply NoDup_fmap_2_strong; [|apply NoDup_range].
    intros i j Hi Hj Heq. apply elem_of_range in Hi, Hj.
    injection Heq as Heq. apply (format_0d_inj 7); [lia..|done].
Qed.

(** Rows 12 and 99999 get different identifiers. *)
Lemma order_ids_are_distinct_witness :
  "ORD-" ++ format_0d 7 12 ≠ "ORD-" ++ format_0d 7 99999.
Proof.
  intros Heq.
  pose proof (proj1 order_ids_are_distinct 12%Z 99999%Z
                ltac:(lia) ltac:(lia) Heq) as Habsurd.
  discriminate Habsurd.
Defined.


(** * Further properties of the route aggregator *)

(** A stop with a travel time that is a string. *)
Definition example_bad_route_details : dict :=
  [("city", JStr "Austin");
   ("stops",
    JDict [("s1", JDict [("travel_time_to_next_stop_in_seconds", JStr "90")])])].

(** X1. When ["stops"] of the route details is a mapping and one of its
    stop mappings holds a travel or service time that is there and is no
    number (a string, a list, a mapping or null), [process_single_route_data]
    raises, whatever the other inputs. *)
Theorem non_numeric_stop_time_raises
    (id : string) (rd stops : dict) (pd sq : json) :
  dict_lookup "stops" rd = Some (JDict stops) →
  stops_numeric stops = false →
  process_single_route_data id (JDict rd) pd sq = None.
Proof.
  intros Hstops Hbad.
  destruct (process_single_route_data id (JDict rd) pd sq) as [r|] eqn:Hr; [|done].
  apply process_single_route_data_parts in Hr as (rp & ? & ? & Hrp & _).
  destruct rd as [|kv rd]; [done|].
  apply route_block_fields in Hrp as [Hdur _]; [|done].
  revert Hdur. unfold route_duration_hours, py_get_default.
  rewrite Hstops. cbn [default from_option mbind option_bind Datatypes.id].
  destruct stops as [|stop stops]; [done|].
  remember (stop :: stops) as items eqn:E.
  replace (truthy (JDict items)) with true by (subst items; done).
  cbn [is_dict andb mbind option_bind].
  by rewrite stops_loop_type_error.
Qed.

Lemma non_numeric_stop_time_raises_witness :
  process_single_route_data "R1" (JDict example_bad_route_details)
    (JDict example_package_details) JNull = None.
Proof.
  eapply (non_numeric_stop_time_raises "R1" example_bad_route_details).
  - reflexivity.
  - reflexivity.
Defined.

Lemma route_block_duration_not_negative (rd : json) (rp : route_part) :
  route_block rd = Some rp → float_negative (rp_duration_hours rp) = false.
Proof.
  intros Hrp. destruct (truthy rd) eqn:Htruthy.
  - destruct rd as [| | | | |d];
      try (unfold route_block in Hrp; rewrite Htruthy in Hrp; simpl in Hrp; done).
    apply route_block_fields in Hrp as [Hdur _].
    2:{ by destruct d. }
    by eapply route_duration_not_negative.
  - unfold route_block in Hrp. rewrite Htruthy in Hrp.
    by injection Hrp as <-.
Qed.

(** X2. A record that [process_single_route_data] returns has a duration
    that the test [< 0] of line 89 is false of: a finite duration is zero
    or above, and the duration is never minus infinity (NaN and plus
    infinity, which stop times that are infinities can give, do pass). Its
    distance is 0.0. *)
Theorem duration_not_negative_distance_zero
    (id : string) (rd pd sq : json) (r : route_metrics) :
  process_single_route_data id rd pd sq = Some r →
  (∀ d, actual_route_duration_hours r = Finite d → (0 <= d)%Q)
  ∧ actual_route_duration_hours r ≠ NegInf
  ∧ actual_route_distance_km r = Finite 0.
Proof.
  intros Hr.
  assert (float_negative (actual_route_duration_hours r) = false) as Hneg.
  { apply process_single_route_data_parts in Hr
      as (rp & ? & ? & Hrp & _ & _ & -> & _).
    by eapply route_block_duration_not_negative. }
  split; [|split].
  - intros d Hd. rewrite Hd in Hneg. by apply Qltb_false in Hneg.
  - intros Hd. by rewrite Hd in Hneg.
  - revert Hr. unfold process_single_route_data.
    destruct (route_block rd); simpl; [|done].
    destruct (package_block pd) as [[n v]|]; simpl; [|done].
    by intros [= <-].
Qed.

(** Stops whose times sum to less than zero. *)
Definition example_negative_route_details : dict :=
  [("stops",
    JDict [("s1", JDict [("travel_time_to_next_stop_in_seconds", JInt (-7200));
                         ("planned_service_time_seconds", JInt 60)])])].

Lemma duration_not_negative_distance_zero_witness :
  ∃ r, process_single_route_data "R1" (JDict example_negative_route_details)
         (JDict example_package_details) JNull = Some r
       ∧ actual_route_duration_hours r = Finite 0
       ∧ (∀ d, actual_route_duration_hours r = Finite d → (0 <= d)%Q)
       ∧ actual_route_duration_hours r ≠ NegInf
       ∧ actual_route_distance_km r = Finite 0.
Proof.
  eexists. split; [vm_compute; reflexivity|].
  split; [reflexivity|].
  apply (duration_not_negative_distance_zero "R1"
           (JDict example_negative_route_details)
           (JDict example_package_details) JNull).
  vm_compute. reflexivity.
Defined.

(** The record of a route with no details at all. *)
Definition default_metrics (id : string) : route_metrics := {|
  route_id := id;
  city := JStr "Unknown";
  route_date := JNull;
  station_code := JNull;
  route_score := JNull;
  origin_latitude := JNull;
  origin_longitude := JNull;
  vehicle_capacity_cm3 := JNull;
  num_deliveries := 0;
  total_calculated_volume_cm3 := Finite 0;
  actual_route_duration_hours := Finite 0;
  actual_route_distance_km := Finite 0
|}.

(** X3. Empty inputs. With empty (or missing) route details and empty (or
    missing) package details [process_single_route_data] returns the record
    of defaults. In any record it returns, empty route details give the
    defaults of the route side: city ["Unknown"], no date, station, score,
    origin or capacity, a duration of 0.0; and empty package details give no
    deliveries and no volume. *)
Theorem empty_details_give_defaults (id : string) (rd pd sq : json) :
  (truthy rd = false → truthy pd = false →
   process_single_route_data id rd pd sq = Some (default_metrics id))
  ∧ (∀ r, process_single_route_data id rd pd sq = Some r →
       (truthy rd = false →
          city r = JStr "Unknown" ∧ route_date r = JNull
          ∧ station_code r = JNull ∧ route_score r = JNull
          ∧ origin_latitude r = JNull ∧ origin_longitude r = JNull
          ∧ vehicle_capacity_cm3 r = JNull
          ∧ actual_route_duration_hours r = Finite 0)
       ∧ (truthy pd = false →
            num_deliveries r = 0%nat
            ∧ total_calculated_volume_cm3 r = Finite 0)).
Proof.
  unfold process_single_route_data, route_block, package_block.
  split.
  - intros -> ->. reflexivity.
  - intros r Hr. split.
    + intros Hrd. rewrite Hrd in Hr. simpl in Hr.
      destruct (if truthy pd then _ else _) as [[n v]|]; simpl in Hr; [|done].
      by injection Hr as <-.
    + intros Hpd. rewrite Hpd in Hr.
      destruct (if truthy rd then _ else _) as [rp|]; simpl in Hr; [|done].
      by injection Hr as <-.
Qed.

Lemma empty_details_give_defaults_witness :
  process_single_route_data "R1" (JDict []) JNull JNull
  = Some (default_metrics "R1")
  ∧ ∃ r, process_single_route_data "R1" (JDict [])
           (JDict example_package_details) JNull = Some r
         ∧ city r = JStr "Unknown"
         ∧ num_deliveries r = 2%nat.
Proof.
  split.
  - apply (proj1 (empty_details_give_defaults "R1" (JDict []) JNull JNull));
      reflexivity.
  - eexists. split; [vm_compute; reflexivity|].
    split; [|reflexivity].
    match goal with |- city ?x = _ => set (r := x) end.
    apply (proj2 (empty_details_give_defaults "R1" (JDict [])
                    (JDict example_package_details) JNull) r);
      [vm_compute; reflexivity|reflexivity].
Defined.

Lemma origin_coordinates_spec (rd : dict) (lat lon : json) :
  origin_coordinates (JDict rd) = Some (lat, lon) →
  match dict_lookup "origin" rd with
  | Some (JDict origin) =>
      lat = default JNull (dict_lookup "latitude" origin)
      ∧ lon = default JNull (dict_lookup "longitude" origin)
  | _ => lat = JNull ∧ lon = JNull
  end.
Proof.
  unfold origin_coordinates, py_in, py_get, py_get_default, py_index. simpl.
  destruct (dict_lookup "origin" rd) as [origin|]; simpl.
  2:{ by intros [= <- <-]. }
  destruct origin; simpl; by intros [= <- <-].
Qed.

(** [x or y] on two looked-up fields. *)
Definition first_truthy (x y : json) : json := if truthy x then x else y.

Lemma route_block_metadata (rd : dict) (rp : route_part) :
  rd ≠ [] →
  route_block (JDict rd) = Some rp →
  rp_route_date rp
  = first_truthy (default JNull (dict_lookup "date_YYYY_MM_DD" rd))
                 (default JNull (dict_lookup "date" rd))
  ∧ rp_vehicle_capacity rp
    = first_truthy (default JNull (dict_lookup "executor_capacity_cm3" rd))
                   (default JNull (dict_lookup "vehicleCapacity" rd)).
Proof.
  intros Hne. unfold route_block, first_truthy.
  assert (truthy (JDict rd) = true) as -> by (destruct rd; done).
  unfold py_get, py_get_default, py_or. simpl.
  destruct (truthy (default JNull (dict_lookup "date_YYYY_MM_DD" rd)));
    destruct (truthy (default JNull (dict_lookup "executor_capacity_cm3" rd)));
    simpl;
    destruct (origin_coordinates (JDict rd)) as [[lat lon]|]; simpl; try done;
    destruct (route_duration_hours (JDict rd)) as [d|]; simpl; try done;
    intros [= <-]; simpl; done.
Qed.

(** X4. The descriptive fields of a route. From a non-empty route-details
    mapping: the city is the value under ["city"], ["Unknown"] when the key
    is absent; the date is the value under ["date_YYYY_MM_DD"], or the one
    under ["date"] when that is missing or empty; the capacity likewise from
    ["executor_capacity_cm3"], then ["vehicleCapacity"]; station and score
    are the values under their keys; the origin coordinates are read only
    from an ["origin"] that is a mapping. A key that is absent gives null. *)
Theorem route_metadata_fields
    (id : string) (rd : dict) (pd sq : json) (r : route_metrics) :
  rd ≠ [] →
  process_single_route_data id (JDict rd) pd sq = Some r →
  route_id r = id
  ∧ city r = default (JStr "Unknown") (dict_lookup "city" rd)
  ∧ route_date r
    = first_truthy (default JNull (dict_lookup "date_YYYY_MM_DD" rd))
                   (default JNull (dict_lookup "date" rd))
  ∧ vehicle_capacity_cm3 r
    = first_truthy (default JNull (dict_lookup "executor_capacity_cm3" rd))
                   (default JNull (dict_lookup "vehicleCapacity" rd))
  ∧ station_code r = default JNull (dict_lookup "station_code" rd)
  ∧ route_score r = default JNull (dict_lookup "route_score" rd)
  ∧ match dict_lookup "origin" rd with
    | Some (JDict origin) =>
        origin_latitude r = default JNull (dict_lookup "latitude" origin)
        ∧ origin_longitude r = default JNull (dict_lookup "longitude" origin)
    | _ => origin_latitude r = JNull ∧ origin_longitude r = JNull
    end.
Proof.
  intros Hne Hr. unfold process_single_route_data in Hr.
  destruct (route_block (JDict rd)) as [rp|] eqn:Hrp; simpl in Hr; [|done].
  destruct (package_block pd) as [[n v]|]; simpl in Hr; [|done].
  injection Hr as <-. simpl.
  destruct (route_block_fields rd rp Hne Hrp) as (_ & Horigin & Hcity & Hst & Hsc).
  destruct (route_block_metadata rd rp Hne Hrp) as (Hdate & Hcap).
  apply origin_coordinates_spec in Horigin.
  repeat split; done.
Qed.

(** A route with a city, a date under the second name, an empty first
    capacity, and an origin that is not a mapping. *)
Definition example_metadata : dict :=
  [("city", JStr "Austin"); ("date", JStr "2018-07-27");
   ("executor_capacity_cm3", JInt 0); ("vehicleCapacity", JInt 3313071);
   ("origin", JStr "DAU1")].

Lemma route_metadata_fields_witness :
  ∃ r, process_single_route_data "R1" (JDict example_metadata)
         (JDict example_package_details) JNull = Some r
       ∧ city r = JStr "Austin"
       ∧ route_date r = JStr "2018-07-27"
       ∧ vehicle_capacity_cm3 r = JInt 3313071
       ∧ station_code r = JNull
       ∧ origin_latitude r = JNull.
Proof.
  eexists. split; [vm_compute; reflexivity|].
  match goal with |- city ?x = _ ∧ _ => set (r := x) end.
  destruct (route_metadata_fields "R1" example_metadata
              (JDict example_package_details) JNull r
              ltac:(discriminate) ltac:(vm_compute; reflexivity))
    as (_ & Hcity & Hdate & Hcap & Hstation & _ & Horigin).
  split; [exact Hcity|]. split; [exact Hdate|]. split; [exact Hcap|].
  split; [exact Hstation|]. exact (proj1 Horigin).
Defined.

(** ** The routes that are considered, and the table that is saved *)

Lemma update_route_ids_dict (d : dict) (ids : gset string) :
  update_route_ids (JDict d) ids = Some (ids ∪ list_to_set (map fst d)).
Proof.
  unfold update_route_ids. destruct d as [|kv d]; simpl; [|done].
  f_equal. by rewrite (right_id_L ∅ (∪)).
Qed.

Lemma collect_route_ids_dicts (src : sources) (build apply eval : dict) :
  route_data_build src = JDict build →
  route_data_apply src = JDict apply →
  route_data_eval src = JDict eval →
  collect_route_ids src
  = Some (∅ ∪ list_to_set (map fst build) ∪ list_to_set (map fst apply)
            ∪ list_to_set (map fst eval)).
Proof.
  intros Hb Ha He. unfold collect_route_ids. rewrite Hb, Ha, He.
  rewrite update_route_ids_dict. cbn [mbind option_bind].
  rewrite update_route_ids_dict. cbn [mbind option_bind].
  by rewrite update_route_ids_dict.
Qed.

(** X5. With three route documents that are mappings, the routes
    considered are exactly the keys of these documents: a route that only a
    package or a sequence document knows is never looked at. *)
Theorem considered_routes_are_route_data_keys
    (src : sources) (build apply eval : dict) :
  route_data_build src = JDict build →
  route_data_apply src = JDict apply →
  route_data_eval src = JDict eval →
  ∃ ids, collect_route_ids src = Some ids
         ∧ ∀ id, id ∈ ids ↔
                 id ∈ map fst build ∨ id ∈ map fst apply ∨ id ∈ map fst eval.
Proof.
  intros Hb Ha He.
  rewrite (collect_route_ids_dicts src build apply eval Hb Ha He).
  eexists. split; [reflexivity|].
  intros id. rewrite !elem_of_union, !elem_of_list_to_set.
  split; [intros [[[Hempty|?]|?]|?]; [set_solver|tauto..] | tauto].
Qed.

Lemma considered_routes_are_route_data_keys_witness :
  ∃ ids, collect_route_ids example_sources = Some ids
         ∧ ("R1" ∈ ids) ∧ ("R2" ∈ ids) ∧ ("R3" ∉ ids).
Proof.
  destruct (considered_routes_are_route_data_keys example_sources _ _ _
              eq_refl eq_refl eq_refl) as (ids & Hids & Hmem).
  exists ids. split; [exact Hids|].
  split; [|split].
  - apply Hmem. left. by left.
  - apply Hmem. left. right. by left.
  - intros Hin. apply Hmem in Hin as [Hin | [Hin | Hin]]; simpl in Hin;
      repeat (apply elem_of_cons in Hin as [Hin | Hin]; [done|]);
      by apply elem_of_nil in Hin.
Defined.

Lemma routes_loop_route_ids (src : sources) (ids : list string)
    (acc rows : list route_metrics) :
  routes_loop src ids acc = Some rows →
  ∃ emitted, map route_id rows = (map route_id acc ++ emitted)%list
             ∧ emitted `sublist_of` ids.
Proof.
  revert acc. induction ids as [|id ids IH]; intros acc Hloop.
  - simpl in Hloop. injection Hloop as <-. exists []. by rewrite app_nil_r.
  - cbn [routes_loop] in Hloop.
    destruct (resolve (route_data_build src) _ _ id) as [rd|];
      simpl in Hloop; [|done].
    destruct (resolve (package_data_build src) _ _ id) as [pd|];
      simpl in Hloop; [|done].
    destruct (resolve (actual_sequences_build src) _ _ id) as [sq|];
      simpl in Hloop; [|done].
    destruct (debug_len rd); simpl in Hloop; [|done].
    destruct (debug_len pd); simpl in Hloop; [|done].
    destruct (debug_len sq); simpl in Hloop; [|done].
    destruct (truthy rd && truthy pd); simpl in Hloop.
    + destruct (process_single_route_data id rd pd sq) as [r0|] eqn:Hr0;
        simpl in Hloop; [|done].
      apply process_single_route_data_parts in Hr0
        as (? & ? & ? & _ & _ & Hid0 & _).
      destruct (IH _ Hloop) as (emitted & Heq & Hsub).
      exists (id :: emitted). split; [|by apply sublist_skip].
      rewrite Heq, map_app. simpl. rewrite Hid0, <- app_assoc. done.
    + destruct (IH _ Hloop) as (emitted & Heq & Hsub).
      exists emitted. split; [done|]. by apply sublist_cons.
Qed.

(** X6. The table that is saved is not empty, holds each route identifier
    at most once, and each of its rows is the aggregate of a considered
    route with route and package details. *)
Theorem saved_rows_have_distinct_route_ids
    (src : sources) (rows : list route_metrics) :
  aggregate src = Saved rows →
  rows ≠ []
  ∧ NoDup (map route_id rows)
  ∧ ∃ ids, collect_route_ids src = Some ids
           ∧ ∀ r, r ∈ rows → route_id r ∈ ids ∧ aggregate_of src r.
Proof.
  unfold aggregate.
  destruct (debug_entries src); [|done].
  destruct (collect_route_ids src) as [ids|]; [|done].
  destruct (bool_decide (ids = ∅)); [done|].
  destruct (routes_loop src (elements ids) []) as [rows'|] eqn:Hloop; [|done].
  destruct rows' as [|r0 rows']; [done|]. intros [= <-].
  split; [done|]. split.
  - destruct (routes_loop_route_ids _ _ _ _ Hloop) as (emitted & -> & Hsub).
    simpl. eapply sublist_NoDup; [|exact Hsub]. apply NoDup_elements.
  - exists ids. split; [done|]. intros r Hr.
    destruct (routes_loop_spec _ _ _ _ Hloop) as (Hsound & _ & _).
    destruct (Hsound r Hr) as [Hnil | [Hin Hagg]].
    { by apply elem_of_nil in Hnil. }
    split; [|done]. by apply elem_of_elements in Hin.
Qed.

Lemma saved_rows_have_distinct_route_ids_witness :
  ∃ rows, aggregate example_sources = Saved rows
          ∧ map route_id rows = ["R1"]
          ∧ NoDup (map route_id rows).
Proof.
  eexists. split; [vm_compute; reflexivity|]. split; [reflexivity|].
  match goal with |- NoDup (map route_id ?l) => set (rows := l) end.
  apply (saved_rows_have_distinct_route_ids example_sources rows).
  vm_compute. reflexivity.
Defined.

(** ** Loading and running *)

Lemma load_json_file_ok (fs : filesystem) (filepath : string) :
  ∃ v, load_json_file fs filepath = Ok v
       ∧ (v = JDict [] ∨ truthy v = true).
Proof.
  unfold load_json_file, path_exists, open_json_load.
  destruct (fs filepath) as [|[content|[]]]; simpl; eauto.
  destruct (truthy content) eqn:Ht; simpl; eauto.
Qed.

(** X7. Loading never stops the script: the nine documents are always
    loaded, each of them the empty mapping or a non-empty value; and with
    none of the files there, the run ends at the first [exit()], with no
    route identifiers. *)
Theorem loading_never_raises (fs : filesystem) :
  (∃ src, load_sources fs = Ok src
          ∧ ∀ doc, doc ∈ [route_data_build src; package_data_build src;
                           actual_sequences_build src; route_data_apply src;
                           package_data_apply src; actual_sequences_apply src;
                           route_data_eval src; package_data_eval src;
                           actual_sequences_eval src] →
                   doc = JDict [] ∨ truthy doc = true)
  ∧ ((∀ filepath, fs filepath = Absent) → main fs = ExitNoRouteIds).
Proof.
  split.
  - unfold load_sources.
    repeat match goal with
    | |- context [load_json_file fs ?p] =>
        let v := fresh "v" in
        let Hv := fresh "Hv" in
        let Hok := fresh "Hok" in
        destruct (load_json_file_ok fs p) as (v & Hv & Hok);
        rewrite Hv; cbn [result_bind]
    end.
    eexists. split; [reflexivity|]. cbn [route_data_build package_data_build
      actual_sequences_build route_data_apply package_data_apply
      actual_sequences_apply route_data_eval package_data_eval
      actual_sequences_eval].
    intros doc Hdoc.
    repeat (apply elem_of_cons in Hdoc as [-> | Hdoc]; [done|]).
    by apply elem_of_nil in Hdoc.
  - intros Habsent. unfold main, load_sources.
    assert (∀ p, load_json_file fs p = Ok (JDict [])) as Hload.
    { intros p. unfold load_json_file, path_exists. by rewrite Habsent. }
    rewrite !Hload. reflexivity.
Qed.

Lemma loading_never_raises_witness :
  main (fun _ => Absent) = ExitNoRouteIds.
Proof.
  apply (loading_never_raises (fun _ => Absent)). done.
Defined.

(** ** The sequence documents *)

(** Two sets of documents that differ in the sequence documents at
    most. *)
Definition same_route_and_package_data (src src' : sources) : Prop :=
  route_data_build src = route_data_build src'
  ∧ route_data_apply src = route_data_apply src'
  ∧ route_data_eval src = route_data_eval src'
  ∧ package_data_build src = package_data_build src'
  ∧ package_data_apply src = package_data_apply src'
  ∧ package_data_eval src = package_data_eval src'.

(** X8. The sequence documents are loaded but not used: two runs of the
    loop that end normally on the same route and package documents emit the
    same rows, whatever the sequence documents hold. *)
Theorem rows_do_not_depend_on_sequences
    (src src' : sources) (ids : list string) (acc rows rows' : list route_metrics) :
  same_route_and_package_data src src' →
  routes_loop src ids acc = Some rows →
  routes_loop src' ids acc = Some rows' →
  rows = rows'.
Proof.
  intros (Hrb & Hra & Hre & Hpb & Hpa & Hpe).
  revert acc. induction ids as [|id ids IH]; intros acc Hloop Hloop'.
  - simpl in *. congruence.
  - cbn [routes_loop] in Hloop, Hloop'.
    rewrite <- Hrb, <- Hra, <- Hre, <- Hpb, <- Hpa, <- Hpe in Hloop'.
    destruct (resolve (route_data_build src) _ _ id) as [rd|];
      simpl in Hloop, Hloop'; [|done].
    destruct (resolve (package_data_build src) _ _ id) as [pd|];
      simpl in Hloop, Hloop'; [|done].
    destruct (resolve (actual_sequences_build src) _ _ id) as [sq|];
      simpl in Hloop; [|done].
    destruct (resolve (actual_sequences_build src') _ _ id) as [sq'|];
      simpl in Hloop'; [|done].
    destruct (debug_len rd); simpl in Hloop, Hloop'; [|done].
    destruct (debug_len pd); simpl in Hloop, Hloop'; [|done].
    destruct (debug_len sq); simpl in Hloop; [|done].
    destruct (debug_len sq'); simpl in Hloop'; [|done].
    destruct (truthy rd && truthy pd); simpl in Hloop, Hloop'.
    + change (process_single_route_data id rd pd sq')
        with (process_single_route_data id rd pd sq) in Hloop'.
      destruct (process_single_route_data id rd pd sq) as [r0|];
        simpl in Hloop, Hloop'; [|done].
      by eapply IH.
    + by eapply IH.
Qed.

(** The documents of the example, with sequences for R1 and R2. *)
Definition example_sources_with_sequences : sources := {|
  route_data_build := route_data_build example_sources;
  package_data_build := package_data_build example_sources;
  actual_sequences_build :=
    JDict [("R1", JDict [("actual", JDict [("s1", JInt 0)])]);
           ("R2", JDict [("actual", JDict [])])];
  route_data_apply := route_data_apply example_sources;
  package_data_apply := package_data_apply example_sources;
  actual_sequences_apply := JDict [];
  route_data_eval := route_data_eval example_sources;
  package_data_eval := package_data_eval example_sources;
  actual_sequences_eval := JList [JInt 1]
|}.

Lemma rows_do_not_depend_on_sequences_witness :
  routes_loop example_sources_with_sequences ["R1"; "R2"] []
  = routes_loop example_sources ["R1"; "R2"] [].
Proof.
  destruct (routes_loop example_sources_with_sequences ["R1"; "R2"] [])
    as [rows'|] eqn:Hloop'; [|vm_compute in Hloop'; discriminate].
  destruct (routes_loop example_sources ["R1"; "R2"] [])
    as [rows|] eqn:Hloop; [|vm_compute in Hloop; discriminate].
  f_equal. symmetry.
  apply (rows_do_not_depend_on_sequences example_sources
           example_sources_with_sequences ["R1"; "R2"] [] rows rows');
    [repeat split | exact Hloop | exact Hloop'].
Defined.

(** ** Well-formed documents *)













(** * Further properties of the order generator *)

(** ** Rounding *)

Lemma py_round_floor_or_next (x : Q) :
  py_round x = Qfloor x
  ∨ (py_round x = (Qfloor x + 1)%Z ∧ (inject_Z (Qfloor x) + (1 # 2) <= x)%Q).
Proof.
  unfold py_round.
  destruct (Qltb (x - inject_Z (Qfloor x)) (1 # 2)) eqn:Hlow; [by left|].
  apply Qltb_false in Hlow.
  destruct (Qltb (1 # 2) (x - inject_Z (Qfloor x))); [right; split; [done|lra]|].
  destruct (Z.even (Qfloor x)); [by left|]. right. split; [done|lra].
Qed.

Lemma py_round_ge (n : Z) (x : Q) : (inject_Z n <= x)%Q → (n ≤ py_round x)%Z.
Proof.
  intros Hn. apply Qfloor_resp_le in Hn. rewrite Qfloor_Z in Hn.
  destruct (py_round_floor_or_next x) as [-> | [-> _]]; lia.
Qed.

Lemma py_round_le (n : Z) (x : Q) : (x <= inject_Z n)%Q → (py_round x ≤ n)%Z.
Proof.
  intros Hn. pose proof (Qfloor_resp_le _ _ Hn) as Hfloor.
  rewrite Qfloor_Z in Hfloor.
  destruct (py_round_floor_or_next x) as [-> | [-> Hhalf]]; [done|].
  destruct (Z.eq_dec (Qfloor x) n) as [Heq | Hne]; [|lia].
  rewrite Heq in Hhalf. lra.
Qed.

(** Rounding to two decimals keeps a value between two bounds that are
    whole cents. *)
Lemma py_round2_between (lo hi : Z) (x : Q) :
  (inject_Z lo <= x * 100)%Q → (x * 100 <= inject_Z hi)%Q →
  (inject_Z lo <= py_round2 x * 100 ∧ py_round2 x * 100 <= inject_Z hi)%Q.
Proof.
  intros Hlo Hhi. unfold py_round2.
  assert (inject_Z (py_round (x * 100)) / 100 * 100
          == inject_Z (py_round (x * 100)))%Q as -> by field.
  rewrite <- !Zle_Qle. split; [by apply py_round_ge | by apply py_round_le].
Qed.

(** ** Rows *)

Section RowFacts.
Context {G : Type} `{RandomSource G}.
Variable REAL_ZIP_CODES : list string.
Variable use_faker_postcode : bool.

(** The draws behind the identifiers and the quantity of a row. *)
Lemma generate_order_identifiers (i : Z) (g : G) :
  let row := (generate_order REAL_ZIP_CODES use_faker_postcode i g).1 in
  (∃ c, (10000 ≤ c ≤ 99999)%Z ∧ customer_id row = "CUST-" ++ format_0d 5 c)
  ∧ (∃ p, (100 ≤ p ≤ 999)%Z ∧ product_id row = "PROD-" ++ format_0d 3 p)
  ∧ (1 ≤ order_quantity row ≤ 5)%Z.
Proof.
  unfold generate_order.
  pose proof (randint_range 10000 99999 g ltac:(done)) as Hc.
  destruct (randint 10000 99999 g) as [c g1].
  destruct (get_random_date START_DATE END_DATE g1) as [order_date g2].
  destruct (random g2) as [r g3].
  destruct (delivery_dates order_date (Qltb r PRIME_MEMBER_RATIO) g3)
    as [[[days expected] actual] g4].
  destruct (get_carrier (Qltb r PRIME_MEMBER_RATIO) g4) as [carrier g5].
  destruct (delivery_cost carrier (Qltb r PRIME_MEMBER_RATIO) g5)
    as [[u cost] g6].
  destruct (destination REAL_ZIP_CODES use_faker_postcode g6) as [zip g7].
  pose proof (randint_range 100 999 g7 ltac:(done)) as Hp.
  destruct (randint 100 999 g7) as [p g8].
  pose proof (randint_range 1 5 g8 ltac:(done)) as Hq.
  destruct (randint 1 5 g8) as [q g9]. simpl in *.
  split; [by exists c|]. split; [by exists p|]. done.
Qed.

(** X10. No row is ever ["Early"]: the status of every generated row is
    ["On-Time"], exactly when the actual date is the expected one, or
    ["Late"], exactly when a delay was added. *)
Theorem delivery_status_is_never_early
    (indices : list Z) (g : G) (row : order) :
  row ∈ (orders_loop REAL_ZIP_CODES use_faker_postcode indices g).1 →
  delivery_status row ≠ "Early"
  ∧ (delivery_status row = "On-Time"
     ↔ actual_delivery_date row = expected_delivery_date row)
  ∧ (delivery_status row = "Late"
     ↔ (expected_delivery_date row < actual_delivery_date row)%Z).
Proof.
  intros Hrow. apply orders_loop_rows in Hrow as (i & g' & _ & ->).
  destruct (generate_order_fields REAL_ZIP_CODES use_faker_postcode i g')
    as (_ & Hstatus & (is_prime & g1 & _ & Hdates) & _).
  pose proof (delivery_dates_spec
                (order_date (generate_order REAL_ZIP_CODES use_faker_postcode i g').1)
                is_prime g1) as Hspec.
  rewrite Hdates in Hspec. destruct Hspec as (_ & _ & Hactual).
  rewrite Hstatus. unfold status_of.
  set (row := (generate_order REAL_ZIP_CODES use_faker_postcode i g').1) in *.
  destruct (Z.ltb_spec (actual_delivery_date row) (expected_delivery_date row)).
  { destruct Hactual; lia. }
  destruct (Z.eqb_spec (actual_delivery_date row) (expected_delivery_date row)).
  - split; [done|]. split; [done|]. split; [done|lia].
  - split; [done|]. split; [split; [done|lia]|]. split; [lia|done].
Qed.

(** X11. Every generated row has an order date between [START_DATE] and
    [END_DATE], a quantity from 1 to 5, a customer identifier ["CUST-"]
    with a number from 10000 to 99999 and a product identifier ["PROD-"]
    with a number from 100 to 999; it is delivered at least one day after
    the order. *)
Theorem row_fields_within_configured_ranges
    (indices : list Z) (g : G) (row : order) :
  row ∈ (orders_loop REAL_ZIP_CODES use_faker_postcode indices g).1 →
  (datetime 2024 1 1 ≤ order_date row ≤ datetime 2024 12 31)%Z
  ∧ (1 ≤ order_quantity row ≤ 5)%Z
  ∧ (∃ c, (10000 ≤ c ≤ 99999)%Z ∧ customer_id row = "CUST-" ++ format_0d 5 c)
  ∧ (∃ p, (100 ≤ p ≤ 999)%Z ∧ product_id row = "PROD-" ++ format_0d 3 p)
  ∧ (order_date row < actual_delivery_date row)%Z.
Proof.
  intros Hrow. apply orders_loop_rows in Hrow as (i & g' & _ & ->).
  destruct (generate_order_fields REAL_ZIP_CODES use_faker_postcode i g')
    as (_ & _ & (is_prime & g1 & Hdays & Hdates) & Hdate & _).
  destruct (generate_order_identifiers i g') as (Hc & Hp & Hq).
  pose proof (delivery_dates_spec
                (order_date (generate_order REAL_ZIP_CODES use_faker_postcode i g').1)
                is_prime g1) as Hspec.
  rewrite Hdates in Hspec. destruct Hspec as (_ & _ & Hactual).
  split; [exact Hdate|]. split; [done|]. split; [done|]. split; [done|].
  destruct Hactual; lia.
Qed.

(** X12. The cost stored in any generated row is between 3.60 and 6.60:
    the lowest base cost with the lowest jitter, the highest base cost with
    the premium and the highest jitter, the rounding to cents staying
    within these bounds. *)
Theorem delivery_cost_within_bounds
    (indices : list Z) (g : G) (row : order) :
  row ∈ (orders_loop REAL_ZIP_CODES use_faker_postcode indices g).1 →
  (3.60 <= delivery_cost_to_amazon row ∧ delivery_cost_to_amazon row <= 6.60)%Q.
Proof.
  intros Hrow. apply orders_loop_rows in Hrow as (i & g' & _ & ->).
  destruct (generate_order_fields REAL_ZIP_CODES use_faker_postcode i g')
    as (_ & _ & _ & _ & (u & [Hlo Hhi] & ->)).
  set (row := (generate_order REAL_ZIP_CODES use_faker_postcode i g').1).
  assert (4 <= nominal_cost (carrier row) (is_prime_member row)
          ∧ nominal_cost (carrier row) (is_prime_member row) <= 6)%Q
    as [Hn4 Hn6].
  { unfold nominal_cost.
    destruct (String.eqb (carrier row) "AMZL"), (is_prime_member row);
      split; by compute. }
  set (n := nominal_cost (carrier row) (is_prime_member row)) in *.
  assert (0 <= (n - 4) * (u - 0.9))%Q as Hlow
    by (apply Qmult_le_0_compat; lra).
  assert (0 <= (6 - n) * (1.1 - u))%Q as Hhigh
    by (apply Qmult_le_0_compat; lra).
  destruct (py_round2_between 360 660 (n * u)) as [Hl Hh].
  - change (inject_Z 360) with 360%Q. nra.
  - change (inject_Z 660) with 660%Q. nra.
  - change (inject_Z 360) with 360%Q in Hl.
    change (inject_Z 660) with 660%Q in Hh. split; lra.
Qed.
End RowFacts.

Lemma delivery_status_is_never_early_witness :
  delivery_status example_late_row ≠ "Early"
  ∧ delivery_status example_on_time_row ≠ "Early".
Proof.
  split.
  - apply (delivery_status_is_never_early [] true [0; 1]%Z example_tape
             example_late_row example_late_row_generated).
  - apply (delivery_status_is_never_early [] true [0; 1]%Z example_tape
             example_on_time_row example_on_time_row_generated).
Defined.

Lemma row_fields_within_configured_ranges_witness :
  (datetime 2024 1 1 ≤ order_date example_late_row ≤ datetime 2024 12 31)%Z
  ∧ (1 ≤ order_quantity example_late_row ≤ 5)%Z.
Proof.
  destruct (row_fields_within_configured_ranges [] true [0; 1]%Z example_tape
              example_late_row example_late_row_generated)
    as (Hdate & Hq & _).
  split; [exact Hdate | exact Hq].
Defined.

Lemma delivery_cost_within_bounds_witness :
  (3.60 <= delivery_cost_to_amazon example_on_time_row
   ∧ delivery_cost_to_amazon example_on_time_row <= 6.60)%Q.
Proof.
  apply (delivery_cost_within_bounds [] true [0; 1]%Z example_tape
           example_on_time_row example_on_time_row_generated).
Defined.

(** ** Zip codes *)

(** Digits only, as [str.isdigit] has them. *)
Definition digits_only (s : string) : Prop :=
  Forall python_digit (list_ascii_of_string s).

Lemma length_zeros_append (k : nat) (s : string) :
  String.length (zeros k ++ s) = (k + String.length s)%nat.
Proof. induction k as [|k IH]; simpl; [done|]. by rewrite IH. Qed.

Lemma digits_only_zeros_append (k : nat) (s : string) :
  digits_only (zeros k ++ s) ↔ digits_only s.
Proof.
  unfold digits_only. induction k as [|k IH]; simpl; [done|].
  rewrite Forall_cons, IH. split; [by intros [_ ?]|].
  intros Hs. split; [|done]. left. vm_compute. lia.
Qed.

(** Padding a cell gives five digits exactly when the cell is at most five
    digits and nothing else; the zeros then go in front. *)
Lemma zfill_five_digits (cell : string) :
  five_digit_characters (zfill 5 cell) ↔
  (String.length cell ≤ 5)%nat ∧ digits_only cell
  ∧ zfill 5 cell = zeros (5 - String.length cell) ++ cell.
Proof.
  unfold five_digit_characters. fold (digits_only (zfill 5 cell)).
  destruct cell as [|c rest].
  { simpl. split;
      [|by intros _; split; [|repeat constructor; left; vm_compute; lia]].
    intros _. split; [lia|]. split; [constructor|done]. }
  unfold zfill.
  destruct (Ascii.eqb c "+" || Ascii.eqb c "-")%bool eqn:Hsign.
  - assert (¬ python_digit c) as Hnot.
    { unfold python_digit.
      apply orb_true_iff in Hsign as [Hc | Hc];
        apply Ascii.eqb_eq in Hc; subst c; vm_compute; lia. }
    split.
    + intros [_ Hdigits]. unfold digits_only in Hdigits. simpl in Hdigits.
      apply Forall_cons in Hdigits as [Hc _]. done.
    + intros (_ & Hdigits & _). unfold digits_only in Hdigits.
      simpl in Hdigits. apply Forall_cons in Hdigits as [Hc _]. done.
  - rewrite length_zeros_append, digits_only_zeros_append.
    split; [intros [Hlen Hd] | intros (Hlen & Hd & _)];
      repeat split; try done; lia.
Qed.

Lemma zfill_digits (cell : string) :
  digits_only cell → zfill 5 cell = zeros (5 - String.length cell) ++ cell.
Proof.
  intros Hdigits. destruct cell as [|c rest]; [done|].
  unfold zfill.
  destruct (Ascii.eqb c "+" || Ascii.eqb c "-")%bool eqn:Hsign; [|done].
  unfold digits_only in Hdigits. simpl in Hdigits.
  apply Forall_cons in Hdigits as [Hc _].
  unfold python_digit in Hc.
  apply orb_true_iff in Hsign as [Hs | Hs];
    apply Ascii.eqb_eq in Hs; subst c; vm_compute in Hc; lia.
Qed.

Lemma load_real_zip_codes_column
    (read_csv : string → result dataframe) (filepath : string)
    (df : dataframe) (name : string) :
  read_csv filepath = Ok df → zip_column df = Some name →
  load_real_zip_codes read_csv filepath
  = Ok (list_of_set (valid_zips (map (zfill 5) (column name df)))).
Proof.
  unfold load_real_zip_codes, zip_column. intros ->. simpl.
  destruct (has_column "zip" df); [by intros [= <-]|].
  destruct (has_column "ZIP" df); [by intros [= <-]|done].
Qed.

Lemma load_real_zip_codes_total
    (read_csv : string → result dataframe) (filepath : string) :
  ∃ zs, load_real_zip_codes read_csv filepath = Ok zs.
Proof.
  unfold load_real_zip_codes.
  destruct (read_csv filepath) as [df|[]]; simpl; eauto.
  destruct (has_column "zip" df); [eauto|].
  destruct (has_column "ZIP" df); eauto.
Qed.

(** X13. What the zip loader keeps and drops. A value is returned exactly
    when some cell of the column is made of at most five characters, each a
    digit as [str.isdigit] has it (0 to 9 and, of the characters below 256,
    the superscripts one, two and three), and the value is that cell with
    zeros in front up to five characters: a cell that is already five such
    characters comes back unchanged; a cell that is longer, signed, or
    holds any other character gives nothing. *)
Theorem loaded_zips_are_padded_digit_cells
    (read_csv : string → result dataframe) (filepath : string)
    (df : dataframe) (name : string) (zs : list string) :
  read_csv filepath = Ok df → zip_column df = Some name →
  load_real_zip_codes read_csv filepath = Ok zs →
  (∀ z, z ∈ zs ↔
        ∃ cell, cell ∈ column name df
                ∧ (String.length cell ≤ 5)%nat ∧ digits_only cell
                ∧ z = zeros (5 - String.length cell) ++ cell)
  ∧ (∀ cell, cell ∈ column name df → five_digit_characters cell → cell ∈ zs).
Proof.
  intros Hdf Hname Hload.
  rewrite (load_real_zip_codes_column _ _ _ _ Hdf Hname) in Hload.
  injection Hload as <-.
  assert (∀ z, z ∈ list_of_set (valid_zips (map (zfill 5) (column name df))) ↔
               ∃ cell, cell ∈ column name df
                       ∧ (String.length cell ≤ 5)%nat ∧ digits_only cell
                       ∧ z = zeros (5 - String.length cell) ++ cell) as Hmem.
  { intros z.
    rewrite elem_of_list_of_set, elem_of_valid_zips, list_elem_of_fmap. split.
    - intros [(cell & -> & Hcell) Hfive].
      apply zfill_five_digits in Hfive as (Hlen & Hdigits & Heq). eauto.
    - intros (cell & Hcell & Hlen & Hdigits & ->).
      rewrite <- (zfill_digits cell Hdigits). split; [eauto|].
      apply zfill_five_digits. split; [done|]. split; [done|].
      by apply zfill_digits. }
  split; [exact Hmem|].
  intros cell Hcell [Hlen Hdigits]. apply Hmem. exists cell.
  split; [done|]. split; [lia|]. split; [done|].
  by rewrite Hlen.
Qed.

(** A table whose ["ZIP"] column has a five-digit cell, a short one, a long
    one, a signed one and one that ends in a superscript two. *)
Definition example_zip_table : dataframe :=
  [("ZIP", ["90210"; "501"; "123456"; "-1234"; example_superscript_zip])].

Lemma loaded_zips_are_padded_digit_cells_witness :
  ∃ zs, load_real_zip_codes (fun _ => Ok example_zip_table) US_ZIP_CODES_CSV = Ok zs
        ∧ ("90210" ∈ zs) ∧ ("00501" ∈ zs) ∧ ("123456" ∉ zs) ∧ ("-1234" ∉ zs)
        ∧ example_superscript_zip ∈ zs.
Proof.
  destruct (load_real_zip_codes_total (fun _ => Ok example_zip_table)
              US_ZIP_CODES_CSV) as [zs Hzs].
  exists zs. split; [exact Hzs|].
  destruct (loaded_zips_are_padded_digit_cells (fun _ => Ok example_zip_table)
              US_ZIP_CODES_CSV example_zip_table "ZIP" zs eq_refl eq_refl Hzs)
    as [Hmem Hkeep].
  split; [|split; [|split; [|split]]].
  - apply Hkeep; [by left|]. split; [reflexivity|].
    repeat constructor; left; vm_compute; lia.
  - apply Hmem. exists "501". split; [right; by left|].
    split; [vm_compute; lia|]. split; [|reflexivity].
    repeat constructor; left; vm_compute; lia.
  - intros Hin. apply Hmem in Hin as (cell & _ & Hlen & _ & Heq).
    apply (f_equal String.length) in Heq.
    rewrite length_zeros_append in Heq. simpl in Heq. lia.
  - intros Hin. apply Hmem in Hin as (cell & _ & Hlen & Hdigits & Heq).
    assert (digits_only "-1234") as Hbad
      by (rewrite Heq; by apply digits_only_zeros_append).
    apply Forall_cons in Hbad as [Hc _].
    unfold python_digit in Hc. vm_compute in Hc. lia.
  - apply Hkeep; [do 4 right; by left|]. split; [reflexivity|].
    unfold python_digit. vm_compute. repeat constructor; lia.
Defined.

(** ** The whole table *)

Section TableFacts.
Context {G : Type} `{RandomSource G}.

Lemma length_orders_loop (zips : list string) (faker : bool)
    (indices : list Z) (g : G) :
  length (orders_loop zips faker indices g).1 = length indices.
Proof.
  revert g. induction indices as [|i indices IH]; intros g; [done|].
  simpl. destruct (generate_order zips faker i g) as [row g1].
  specialize (IH g1). destruct (orders_loop zips faker indices g1) as [rows g2].
  simpl in *. by rewrite IH.
Qed.

Lemma length_range (n : Z) : (0 ≤ n)%Z → Z.of_nat (length (range n)) = n.
Proof.
  intros Hn. unfold range. rewrite length_map, length_seq. lia.
Qed.

(** X14. The generator never raises, whatever happens to the zip code
    file, and its table has [NUM_ORDERS] rows; it draws postal codes from
    Faker exactly when no zip code was loaded. *)
Theorem generate_orders_yields_num_orders_rows
    (read_csv : string → result dataframe) (g : G) :
  ∃ rows zips,
    generate_orders read_csv g = Ok rows
    ∧ Z.of_nat (length rows) = NUM_ORDERS
    ∧ load_real_zip_codes read_csv US_ZIP_CODES_CSV = Ok zips
    ∧ rows = (orders_loop zips (bool_decide (zips = [])) (range NUM_ORDERS) g).1.
Proof.
  unfold generate_orders.
  destruct (load_real_zip_codes_total read_csv US_ZIP_CODES_CSV) as [zips ->].
  cbn [result_bind].
  assert ((match zips with [] => true | _ => false end)
          = bool_decide (zips = [])) as -> by (by destruct zips).
  eexists _, zips. split; [reflexivity|].
  split; [|done]. rewrite length_orders_loop. by apply length_range.
Qed.

(** Where the destination of a row comes from. *)
Lemma generate_order_destination (zips : list string) (faker : bool)
    (i : Z) (g : G) :
  ∃ g', destination_zip_code (generate_order zips faker i g).1
        = (destination zips faker g').1.
Proof.
  unfold generate_order.
  destruct (randint 10000 99999 g) as [c g1].
  destruct (get_random_date START_DATE END_DATE g1) as [order_date g2].
  destruct (random g2) as [r g3].
  destruct (delivery_dates order_date (Qltb r PRIME_MEMBER_RATIO) g3)
    as [[[days expected] actual] g4].
  destruct (get_carrier (Qltb r PRIME_MEMBER_RATIO) g4) as [carrier g5].
  destruct (delivery_cost carrier (Qltb r PRIME_MEMBER_RATIO) g5)
    as [[u cost] g6].
  exists g6.
  destruct (destination zips faker g6) as [zip g7].
  destruct (randint 100 999 g7) as [p g8].
  destruct (randint 1 5 g8) as [q g9]. done.
Qed.

(** X15. Loader and generator together: when zip codes were loaded, and
    [random.choice] returns an element of the list it is given, the
    destination of every generated row is one of the loaded zip codes,
    hence five characters that [str.isdigit] accepts. *)
Theorem destinations_are_loaded_zip_codes
    (read_csv : string → result dataframe) (zips : list string)
    (indices : list Z) (g : G) (row : order) :
  load_real_zip_codes read_csv US_ZIP_CODES_CSV = Ok zips →
  zips ≠ [] →
  (∀ g', (choice zips g').1 ∈ zips) →
  row ∈ (orders_loop zips (bool_decide (zips = [])) indices g).1 →
  destination_zip_code row ∈ zips
  ∧ five_digit_characters (destination_zip_code row).
Proof.
  intros Hload Hne Hchoice Hrow.
  apply orders_loop_rows in Hrow as (i & g' & _ & ->).
  destruct (generate_order_destination zips (bool_decide (zips = [])) i g')
    as [g'' ->].
  assert ((destination zips (bool_decide (zips = [])) g'').1 ∈ zips) as Hin.
  { unfold destination. rewrite bool_decide_eq_false_2 by done. simpl.
    destruct zips; [done|]. apply Hchoice. }
  split; [done|].
  revert Hload Hin. unfold load_real_zip_codes.
  destruct (read_csv US_ZIP_CODES_CSV) as [df|[]]; simpl;
    try (intros [= <-]; by intros ?%elem_of_nil).
  destruct (has_column "zip" df).
  { intros [= <-]. rewrite elem_of_list_of_set, elem_of_valid_zips. tauto. }
  destruct (has_column "ZIP" df).
  { intros [= <-]. rewrite elem_of_list_of_set, elem_of_valid_zips. tauto. }
  intros [= <-]. by intros ?%elem_of_nil.
Qed.
End TableFacts.

Lemma tape_choice_in (population : list string) (t : Tape.tape) :
  population ≠ [] → (Tape.tape_choice population t).1 ∈ population.
Proof.
  intros Hne. unfold Tape.tape_choice, Tape.tape_choices.
  destruct (Tape.next t) as [x t']. simpl.
  apply list_elem_of_In, nth_In.
  assert (0 < length population)%nat by (destruct population; [done|simpl; lia]).
  pose proof (Z.mod_pos_bound x (Z.of_nat (length population)) ltac:(lia)). lia.
Qed.

(** Two rows drawn with the zip codes of the example table loaded. *)
Lemma destinations_are_loaded_zip_codes_witness :
  ∃ zips row,
    load_real_zip_codes example_read_csv US_ZIP_CODES_CSV = Ok zips
    ∧ row ∈ (orders_loop zips false [0; 1]%Z example_tape).1
    ∧ destination_zip_code row ∈ zips
    ∧ five_digit_characters (destination_zip_code row).
Proof.
  destruct (load_real_zip_codes_total example_read_csv US_ZIP_CODES_CSV)
    as [zips Hzips].
  assert (zips ≠ []) as Hne.
  { vm_compute in Hzips. injection Hzips as <-. done. }
  exists zips.
  destruct (orders_loop zips false [0; 1]%Z example_tape).1 as [|row rows] eqn:Hrows.
  { apply (f_equal length) in Hrows. rewrite length_orders_loop in Hrows. done. }
  exists row. split; [exact Hzips|]. split; [by left|].
  apply (destinations_are_loaded_zip_codes example_read_csv zips [0; 1]%Z
           example_tape row Hzips Hne).
  - intros t. by apply tape_choice_in.
  - rewrite bool_decide_eq_false_2 by done. rewrite Hrows. by left.
Defined.

(** ** The width of the identifiers *)

Lemma of_uint_acc_lower_bound (l : Decimal.uint) (acc : positive) :
  (Z.pos acc * 10 ^ Z.of_nat (Decimal.nb_digits l)
   ≤ Z.pos (Pos.of_uint_acc l acc))%Z.
Proof.
  revert acc. induction l as [|l IH|l IH|l IH|l IH|l IH|l IH|l IH|l IH|l IH|l IH];
    intros acc;
    [simpl; lia
    | cbn [Pos.of_uint_acc Decimal.nb_digits];
      rewrite Nat2Z.inj_succ, Z.pow_succ_r by lia;
      etransitivity; [|apply IH];
      pose proof (Z.pow_pos_nonneg 10 (Z.of_nat (Decimal.nb_digits l))
                    ltac:(lia) ltac:(lia));
      nia ..].
Qed.

Lemma nzhead_not_D0 (d l : Decimal.uint) : Decimal.nzhead d ≠ Decimal.D0 l.
Proof. induction d; simpl; done. Qed.

Lemma unorm_D0 (d l : Decimal.uint) :
  Decimal.unorm d = Decimal.D0 l → l = Decimal.Nil.
Proof.
  unfold Decimal.unorm. pose proof (nzhead_not_D0 d) as Hnz.
  destruct (Decimal.nzhead d); try done.
  - by intros [= <-].
  - by destruct (Hnz u).
Qed.

(** A numeral without leading zeros and with [S k] digits denotes at least
    [10 ^ k]. *)
Lemma of_uint_lower_bound (d : Decimal.uint) :
  Decimal.unorm d = d →
  (Decimal.nb_digits d ≤ 1)%nat
  ∨ (10 ^ (Z.of_nat (Decimal.nb_digits d) - 1) ≤ Z.of_N (N.of_uint d))%Z.
Proof.
  intros Hnorm.
  destruct d as [|l|l|l|l|l|l|l|l|l|l];
    try (right; cbn [N.of_uint Pos.of_uint Decimal.nb_digits];
         rewrite Nat2Z.inj_succ;
         replace (Z.succ (Z.of_nat (Decimal.nb_digits l)) - 1)%Z
           with (Z.of_nat (Decimal.nb_digits l)) by lia;
         match goal with
         | |- context [Pos.of_uint_acc l ?k] =>
             pose proof (of_uint_acc_lower_bound l k)
         end;
         pose proof (Z.pow_pos_nonneg 10 (Z.of_nat (Decimal.nb_digits l))
                       ltac:(lia) ltac:(lia));
         simpl Z.of_N; nia).
  - left. simpl. lia.
  - left. apply unorm_D0 in Hnorm as ->. simpl. lia.
Qed.

Lemma length_string_of_uint (d : Decimal.uint) :
  String.length (NilEmpty.string_of_uint d) = Decimal.nb_digits d.
Proof. induction d; simpl; by rewrite ?IHd. Qed.

(** A number below [10 ^ k] is written with at most [k] digits. *)
Lemma length_decimal (k : nat) (n : Z) :
  (1 ≤ k)%nat → (0 ≤ n < 10 ^ Z.of_nat k)%Z →
  (String.length (decimal n) ≤ k)%nat.
Proof.
  intros Hk Hn. unfold decimal. rewrite length_string_of_uint.
  set (d := N.to_uint (Z.to_N n)).
  assert (Decimal.unorm d = d) as Hnorm.
  { pose proof (DecimalN.Unsigned.to_of d) as Hto. unfold d in Hto at 1.
    by rewrite DecimalN.Unsigned.of_to in Hto. }
  destruct (of_uint_lower_bound d Hnorm) as [Hsmall | Hbig]; [lia|].
  unfold d in Hbig at 2. rewrite DecimalN.Unsigned.of_to, Z2N.id in Hbig by lia.
  destruct (Nat.le_gt_cases (Decimal.nb_digits d) k) as [Hle | Hgt]; [done|].
  assert (10 ^ Z.of_nat k ≤ 10 ^ (Z.of_nat (Decimal.nb_digits d) - 1))%Z
    by (apply Z.pow_le_mono_r; lia).
  lia.
Qed.

Lemma length_format_0d (width : nat) (n : Z) :
  (1 ≤ width)%nat → (0 ≤ n < 10 ^ Z.of_nat width)%Z →
  String.length (format_0d width n) = width.
Proof.
  intros Hw Hn. unfold format_0d.
  destruct (Z.ltb_spec n 0); [lia|].
  rewrite length_zeros_append.
  pose proof (length_decimal width n Hw Hn). lia.
Qed.

Section Widths.
Context {G : Type} `{RandomSource G}.

(** X16. The identifiers have a fixed width: for row indices below
    10,000,000 every generated row has an [order_id] of 11 characters, a
    [customer_id] of 10 and a [product_id] of 8. *)
Theorem identifiers_have_fixed_width
    (zips : list string) (faker : bool) (indices : list Z) (g : G) (row : order) :
  (∀ i, i ∈ indices → (0 ≤ i < 10000000)%Z) →
  row ∈ (orders_loop zips faker indices g).1 →
  String.length (order_id row) = 11%nat
  ∧ String.length (customer_id row) = 10%nat
  ∧ String.length (product_id row) = 8%nat.
Proof.
  intros Hindices Hrow.
  apply orders_loop_rows in Hrow as (i & g' & Hi & ->).
  destruct (generate_order_fields zips faker i g') as (-> & _).
  destruct (generate_order_identifiers zips faker i g')
    as ((c & Hc & ->) & (p & Hp & ->) & _).
  specialize (Hindices i Hi).
  change (String.length ("ORD-" ++ format_0d 7 i))
    with (4 + String.length (format_0d 7 i))%nat.
  change (String.length ("CUST-" ++ format_0d 5 c))
    with (5 + String.length (format_0d 5 c))%nat.
  change (String.length ("PROD-" ++ format_0d 3 p))
    with (5 + String.length (format_0d 3 p))%nat.
  rewrite !length_format_0d; [done|lia..].
Qed.
End Widths.

Lemma identifiers_have_fixed_width_witness :
  String.length (order_id example_late_row) = 11%nat
  ∧ String.length (customer_id example_late_row) = 10%nat
  ∧ String.length (product_id example_late_row) = 8%nat.
Proof.
  apply (identifiers_have_fixed_width [] true [0; 1]%Z example_tape
           example_late_row).
  - intros i Hi.
    repeat (apply elem_of_cons in Hi as [-> | Hi]; [lia|]).
    by apply elem_of_nil in Hi.
  - exact example_late_row_generated.
Defined.

(** ** Carrier and delay *)

Section CarrierFacts.
Context {G : Type} `{RandomSource G}.

(** X17. The delay test of lines 123-124 draws exactly one number from
    [random.random()], for prime and standard orders alike, and a delay is
    triggered exactly when that number is below the delay probability of
    the order's tier. *)
Theorem delay_test_draws_once (is_prime_member : bool) (g : G) :
  (delay_triggered is_prime_member g).2 = (random g).2
  ∧ ((delay_triggered is_prime_member g).1 = true
     ↔ ((random g).1
        < (if is_prime_member then PRIME_DELAY_PROBABILITY
           else STANDARD_DELAY_PROBABILITY))%Q).
Proof.
  unfold delay_triggered.
  destruct is_prime_member; destruct (random g) as [r g']; simpl.
  - destruct (Qltb r PRIME_DELAY_PROBABILITY) eqn:Hr; simpl.
    + split; [done|]. by rewrite <- Qltb_true.
    + split; [done|]. by rewrite <- Qltb_true, Hr.
  - split; [done|]. by rewrite <- Qltb_true.
Qed.

(** The carrier of a row is what [get_carrier] drew. *)
Lemma generate_order_carrier (zips : list string) (faker : bool) (i : Z) (g : G) :
  ∃ g', carrier (generate_order zips faker i g).1
        = (get_carrier (is_prime_member (generate_order zips faker i g).1) g').1.
Proof.
  unfold generate_order.
  destruct (randint 10000 99999 g) as [c g1].
  destruct (get_random_date START_DATE END_DATE g1) as [order_date g2].
  destruct (random g2) as [r g3].
  destruct (delivery_dates order_date (Qltb r PRIME_MEMBER_RATIO) g3)
    as [[[days expected] actual] g4].
  exists g4.
  destruct (get_carrier (Qltb r PRIME_MEMBER_RATIO) g4) as [carrier g5] eqn:Hcarrier.
  destruct (delivery_cost carrier (Qltb r PRIME_MEMBER_RATIO) g5)
    as [[u cost] g6].
  destruct (destination zips faker g6) as [zip g7].
  destruct (randint 100 999 g7) as [p g8].
  destruct (randint 1 5 g8) as [q g9]. simpl. by rewrite Hcarrier.
Qed.

(** X18. When [random.choices] returns a member of the population it is
    given, the carrier of every generated row is one of the four configured
    carriers, and its cost before jitter is one of 4.00, 4.80, 5.00 and
    6.00: 5.00 for AMZL and 4.00 for the others, times 1.2 for a prime
    member. *)
Theorem carrier_is_configured
    (zips : list string) (faker : bool) (indices : list Z) (g : G) (row : order) :
  (∀ population weights g',
     population ≠ [] → (choices population weights g').1 ∈ population) →
  row ∈ (orders_loop zips faker indices g).1 →
  carrier row ∈ ["AMZL"; "UPS"; "USPS"; "FedEx"]
  ∧ (nominal_cost (carrier row) (is_prime_member row)
     == (if String.eqb (carrier row) "AMZL" then 5 else 4)
        * (if is_prime_member row then 1.2 else 1))%Q.
Proof.
  intros Hchoices Hrow.
  apply orders_loop_rows in Hrow as (i & g' & _ & ->).
  destruct (generate_order_carrier zips faker i g') as [g'' ->].
  set (row := (generate_order zips faker i g').1).
  split.
  - unfold get_carrier.
    destruct (is_prime_member row); by apply Hchoices.
  - unfold nominal_cost.
    destruct (String.eqb _ "AMZL"), (is_prime_member row); by compute.
Qed.
End CarrierFacts.

Lemma tape_choices_in (population : list string) (weights : list Q)
    (t : Tape.tape) :
  population ≠ [] → (Tape.tape_choices population weights t).1 ∈ population.
Proof.
  intros Hne. unfold Tape.tape_choices.
  destruct (Tape.next t) as [x t']. simpl.
  apply list_elem_of_In, nth_In.
  assert (0 < length population)%nat by (destruct population; [done|simpl; lia]).
  pose proof (Z.mod_pos_bound x (Z.of_nat (length population)) ltac:(lia)). lia.
Qed.

Lemma carrier_is_configured_witness :
  carrier example_late_row ∈ ["AMZL"; "UPS"; "USPS"; "FedEx"].
Proof.
  apply (carrier_is_configured [] true [0; 1]%Z example_tape example_late_row).
  - intros population weights t Hne. by apply tape_choices_in.
  - exact example_late_row_generated.
Defined.

Lemma delay_test_draws_once_witness :
  (delay_triggered true ([10; 777]%Z : Tape.tape)).1 = true
  ∧ (delay_triggered true ([10; 777]%Z : Tape.tape)).2 = [777%Z].
Proof.
  destruct (delay_test_draws_once true ([10; 777]%Z : Tape.tape)) as [Hstate Hiff].
  split; [|exact Hstate].
  apply Hiff. reflexivity.
Defined.
